(** * proxy_server.py: routing, relay, error normalisation and auth gate

    A shallow embedding of the request path of [proxy_server.py]:
    [load_config], [initialize_clients], [authenticate_request],
    [get_client], the [chat_completion] and [completion] handlers with
    their [except] chains, and the streaming generator [generate].

    Python strings are modelled by [string] (a sequence of characters),
    Python [int] by [Z], [Optional[T]] by [option T], [os.environ] and the
    message dictionaries handed to the SDK by [gmap string _].  What the
    program takes from outside (the provider SDK, pydantic's serialisers,
    [json.dumps], the builtin [int]) is an interface, see [External]. *)

From Stdlib Require Import ZArith String Ascii List Bool Lia.
From Stdlib Require Import DecimalString.
From stdpp Require Import base option gmap strings.

Local Open Scope Z_scope.

(* ------------------------------------------------------------------ *)
(** ** Python string operations used by the server *)

Module PyStr.

(** [s.startswith(p)] *)
Fixpoint startswith (p s : string) : bool :=
  match p with
  | EmptyString => true
  | String a p' =>
      match s with
      | EmptyString => false
      | String b s' => if Ascii.eqb a b then startswith p' s' else false
      end
  end.

(** [p in s] for strings: [p] occurs in [s] at some position. *)
Fixpoint contains (p s : string) : bool :=
  startswith p s ||
  match s with
  | EmptyString => false
  | String _ s' => contains p s'
  end.

(** [s[n:]] for [n >= 0]; slicing past the end gives the empty string. *)
Fixpoint slice_from (n : nat) (s : string) : string :=
  match n with
  | O => s
  | S n' => match s with
            | EmptyString => EmptyString
            | String _ s' => slice_from n' s'
            end
  end.

(** [c.lower()] on one character: only [A]..[Z] change.  No character
    outside ASCII lowers to an ASCII letter of the word compared with in
    [load_config], so the comparison there is not affected. *)
Definition lower_char (c : ascii) : ascii :=
  let n := nat_of_ascii c in
  if (Nat.leb 65 n && Nat.leb n 90)%bool then ascii_of_nat (n + 32) else c.

Fixpoint lower (s : string) : string :=
  match s with
  | EmptyString => EmptyString
  | String c s' => String (lower_char c) (lower s')
  end.

(** Truth value of a string: the empty string is false. *)
Definition truthy (s : string) : bool :=
  match s with EmptyString => false | _ => true end.

(** Truth value of [Optional[str]]: [None] and the empty string are false. *)
Definition truthy_opt (o : option string) : bool :=
  match o with None => false | Some s => truthy s end.

(** [x or d] on integers: [0] is false. *)
Definition int_or (x d : Z) : Z := if x =? 0 then d else x.

(** [str(n)] for an integer. *)
Definition str_of_int (n : Z) : string := NilZero.string_of_int (Z.to_int n).

(** The line feed written [\n] in the source. *)
Definition LF : string := String (ascii_of_nat 10) EmptyString.

End PyStr.

(* ------------------------------------------------------------------ *)
(** ** Exceptions *)

(** The exception classes the handlers distinguish.  The [openai] classes
    and their superclasses are those of the SDK the source imports:
    [RateLimitError], [AuthenticationError] and [BadRequestError] derive
    from [APIStatusError], which like [APIConnectionError] derives from
    [APIError], itself an [OpenAIError]. *)
Inductive exc_class :=
| ClsException
| ClsValueError
| ClsTypeError
| ClsAttributeError
| ClsValidationError
| ClsHTTPException
| ClsOpenAIError
| ClsAPIError
| ClsAPIConnectionError
| ClsAPIStatusError
| ClsBadRequestError
| ClsAuthenticationError
| ClsRateLimitError.

Definition exc_class_eqb (c d : exc_class) : bool :=
  match c, d with
  | ClsException, ClsException
  | ClsValueError, ClsValueError
  | ClsTypeError, ClsTypeError
  | ClsAttributeError, ClsAttributeError
  | ClsValidationError, ClsValidationError
  | ClsHTTPException, ClsHTTPException
  | ClsOpenAIError, ClsOpenAIError
  | ClsAPIError, ClsAPIError
  | ClsAPIConnectionError, ClsAPIConnectionError
  | ClsAPIStatusError, ClsAPIStatusError
  | ClsBadRequestError, ClsBadRequestError
  | ClsAuthenticationError, ClsAuthenticationError
  | ClsRateLimitError, ClsRateLimitError => true
  | _, _ => false
  end.

(** The direct superclass; [Exception] is the root considered here. *)
Definition base (c : exc_class) : option exc_class :=
  match c with
  | ClsException => None
  | ClsValueError | ClsTypeError | ClsAttributeError
  | ClsValidationError | ClsHTTPException | ClsOpenAIError => Some ClsException
  | ClsAPIError => Some ClsOpenAIError
  | ClsAPIConnectionError | ClsAPIStatusError => Some ClsAPIError
  | ClsBadRequestError | ClsAuthenticationError
  | ClsRateLimitError => Some ClsAPIStatusError
  end.

(** [issubclass c d], walking up at most [fuel] superclasses. *)
Fixpoint issubclass_upto (fuel : nat) (c d : exc_class) : bool :=
  exc_class_eqb c d ||
  match fuel with
  | O => false
  | S n => match base c with
           | None => false
           | Some c' => issubclass_upto n c' d
           end
  end.

(** The hierarchy above has depth 5, so 5 steps reach every ancestor. *)
Definition issubclass : exc_class -> exc_class -> bool := issubclass_upto 5.

(** A raised exception.  [HTTPException] is FastAPI's, with the two fields
    the source sets.  Any other exception is given by its class, by
    [str(e)], and by its [status_code] attribute ([None]: the object has no
    such attribute). *)
Inductive exn :=
| HTTPException (status_code : Z) (detail : string)
| PyExc (cls : exc_class) (message : string) (status_code : option Z).

Definition class_of (e : exn) : exc_class :=
  match e with
  | HTTPException _ _ => ClsHTTPException
  | PyExc c _ _ => c
  end.

(** [isinstance(e, c)], the test an [except c] clause makes. *)
Definition isinstance (e : exn) (c : exc_class) : bool :=
  issubclass (class_of e) c.

(** [str(e)]; for [HTTPException] the framework prints status and detail. *)
Definition str (e : exn) : string :=
  match e with
  | HTTPException sc d => PyStr.str_of_int sc +:+ ": " +:+ d
  | PyExc _ m _ => m
  end.

(** [getattr(e, "status_code", d)] *)
Definition getattr_status_code (e : exn) (d : Z) : Z :=
  match e with
  | HTTPException sc _ => sc
  | PyExc _ _ (Some sc) => sc
  | PyExc _ _ None => d
  end.

(** Results of code that may raise. *)
Inductive result (A : Type) :=
| Ok (a : A)
| Raise (e : exn).
Arguments Ok {A} a.
Arguments Raise {A} e.

(** Sequencing: a raised exception skips the rest ([x ← m; k]). *)
Global Instance result_bind : MBind result := fun A B k m =>
  match m with
  | Ok a => k a
  | Raise e => Raise e
  end.

Global Instance result_ret : MRet result := fun A a => Ok a.

(* ------------------------------------------------------------------ *)
(** ** JSON values and the external interface *)

(** The JSON values the server builds itself (dictionaries, lists, strings
    and booleans). *)
Local Unset Elimination Schemes.
Inductive json :=
| JStr (s : string)
| JBool (b : bool)
| JArr (items : list json)
| JObj (fields : list (string * json)).
Local Set Elimination Schemes.

(** What the server takes from its libraries: the float type, the SDK's
    response objects with pydantic's [model_dump] and [model_dump_json],
    [json.dumps] and the builtin [int] on strings ([None]: [ValueError]). *)
Class External := {
  float : Type;
  completion_obj : Type;
  chunk : Type;
  model_dump : completion_obj -> json;
  model_dump_json : chunk -> string;
  json_dumps : json -> string;
  py_int : string -> option Z
}.

(* ------------------------------------------------------------------ *)
(** ** Configuration *)

Module OpenAIConfig.
Record t := mk {
  api_key : string;
  base_url : string;
  organization : option string
}.
End OpenAIConfig.

Module AzureOpenAIConfig.
Record t := mk {
  api_key : option string;
  api_version : string;
  azure_endpoint : string;
  azure_deployment : string;
  use_azure_identity : bool
}.
End AzureOpenAIConfig.

Record ProxyConfig := mkProxyConfig {
  openai : option OpenAIConfig.t;
  azure_openai : option AzureOpenAIConfig.t;
  master_key : string;
  port : Z;
  host : string
}.

(** [os.getenv(k)] and [os.getenv(k, d)] over the process environment. *)
Definition getenv (env : gmap string string) (k : string) : option string :=
  env !! k.

Definition getenv_default (env : gmap string string) (k d : string) : string :=
  default d (env !! k).

(** pydantic's check of a required [str] field: [None] is refused. *)
Definition required_str (field : string) (v : option string) : result string :=
  match v with
  | Some s => Ok s
  | None => Raise (PyExc ClsValidationError field None)
  end.

Section Config.
Context `{External}.

(** [int(s)] *)
Definition int_of_str (s : string) : result Z :=
  match py_int s with
  | Some n => Ok n
  | None => Raise (PyExc ClsValueError s None)
  end.

(** [load_config]: the arguments of [ProxyConfig(...)] are evaluated in
    the order written, so a bad Azure section fails before a bad port. *)
Definition load_config (env : gmap string string) : result ProxyConfig :=
  let use_azure_ad :=
    bool_decide (is_Some (getenv env "AZURE_AD_TOKEN")) ||
    String.eqb (PyStr.lower (getenv_default env "USE_AZURE_IDENTITY" "false")) "true" in
  openai_cfg ←
    (match getenv env "OPENAI_API_KEY" with
     | Some key =>
         if PyStr.truthy key then
           Ok (Some (OpenAIConfig.mk key
                       (getenv_default env "OPENAI_BASE_URL" "https://api.openai.com/v1")
                       (getenv env "OPENAI_ORGANIZATION")))
         else Ok None
     | None => Ok None
     end);
  azure_cfg ←
    (if (PyStr.truthy_opt (getenv env "AZURE_OPENAI_API_KEY") || use_azure_ad)
          && PyStr.truthy_opt (getenv env "AZURE_ENDPOINT")
     then
       endpoint ← required_str "azure_endpoint" (getenv env "AZURE_ENDPOINT");
       deployment ← required_str "azure_deployment" (getenv env "AZURE_DEPLOYMENT");
       Ok (Some (AzureOpenAIConfig.mk
                   (getenv env "AZURE_OPENAI_API_KEY")
                   (getenv_default env "AZURE_API_VERSION" "2024-02-15-preview")
                   endpoint deployment use_azure_ad))
     else Ok None);
  let key := getenv_default env "MASTER_KEY" "sk-1234" in
  p ← int_of_str (getenv_default env "PORT" "4000");
  Ok (mkProxyConfig openai_cfg azure_cfg key p (getenv_default env "HOST" "0.0.0.0")).

End Config.

(* ------------------------------------------------------------------ *)
(** ** Provider clients and the module globals *)

Inductive azure_auth :=
| AzureAdTokenProvider
| AzureApiKey (api_key : option string).

Inductive client :=
| AsyncOpenAI (api_key base_url : string) (organization : option string)
| AsyncAzureOpenAI (auth : azure_auth)
    (api_version azure_endpoint azure_deployment : string).

(** The three module globals, as [initialize_clients] leaves them. *)
Record globals := mkGlobals {
  openai_client : option client;
  azure_client : option client;
  config : ProxyConfig
}.

Section Startup.
Context `{External}.

(** [initialize_clients]; [AZURE_IDENTITY_AVAILABLE] records whether the
    optional import at the top of the module succeeded. *)
Definition initialize_clients (AZURE_IDENTITY_AVAILABLE : bool)
    (env : gmap string string) : result globals :=
  cfg ← load_config env;
  let oc :=
    match openai cfg with
    | Some c => Some (AsyncOpenAI (OpenAIConfig.api_key c)
                        (OpenAIConfig.base_url c)
                        (OpenAIConfig.organization c))
    | None => None
    end in
  let ac :=
    match azure_openai cfg with
    | Some a =>
        if AzureOpenAIConfig.use_azure_identity a && AZURE_IDENTITY_AVAILABLE
        then Some (AsyncAzureOpenAI AzureAdTokenProvider
                     (AzureOpenAIConfig.api_version a)
                     (AzureOpenAIConfig.azure_endpoint a)
                     (AzureOpenAIConfig.azure_deployment a))
        else Some (AsyncAzureOpenAI (AzureApiKey (AzureOpenAIConfig.api_key a))
                     (AzureOpenAIConfig.api_version a)
                     (AzureOpenAIConfig.azure_endpoint a)
                     (AzureOpenAIConfig.azure_deployment a))
    | None => None
    end in
  Ok (mkGlobals oc ac cfg).

End Startup.

(* ------------------------------------------------------------------ *)
(** ** Auth gate and model router *)

(** [authenticate_request], given the value of the [Authorization] header
    ([None]: the header is absent). *)
Definition authenticate_request (g : globals) (auth_header : option string)
    : result bool :=
  match auth_header with
  | None => Raise (HTTPException 401 "Missing Authorization header")
  | Some h =>
      if negb (PyStr.truthy h) || negb (PyStr.startswith "Bearer " h)
      then Raise (HTTPException 401 "Missing Authorization header")
      else
        let token := PyStr.slice_from 7 h in
        if negb (String.eqb token (master_key (config g)))
        then Raise (HTTPException 401 "Invalid API key")
        else Ok true
  end.

(** [b and o] where [o] is an optional client: the client when [b] holds
    and the client is set, nothing otherwise. *)
Definition and_client (b : bool) (o : option client) : option client :=
  if b then o else None.

(** [get_client]: the [if]/[elif] chain, tested top to bottom. *)
Definition get_client (g : globals) (model : string) : result client :=
  match and_client (PyStr.startswith "gpt-" model) (openai_client g) with
  | Some c => Ok c
  | None =>
    match and_client (PyStr.startswith "azure-" model || PyStr.contains "gpt" model)
                     (azure_client g) with
    | Some c => Ok c
    | None =>
      match azure_client g with
      | Some c => Ok c
      | None =>
        match openai_client g with
        | Some c => Ok c
        | None => Raise (HTTPException 400 "No configured AI providers")
        end
      end
    end
  end.

(* ------------------------------------------------------------------ *)
(** ** Requests, provider calls and responses *)

Record ChatMessage := mkChatMessage {
  role : string;
  content : string;
  name : option string
}.

Section Server.
Context `{External}.

Record ChatCompletionRequest := mkChatCompletionRequest {
  chat_model : string;
  messages : list ChatMessage;
  chat_temperature : option float;
  chat_max_tokens : option Z;
  stream : option bool
}.

Record CompletionRequest := mkCompletionRequest {
  model : string;
  prompt : string;
  temperature : option float;
  max_tokens : option Z
}.

(** Keyword arguments of [client.chat.completions.create]. *)
Record chat_create_kwargs := mkChatCreate {
  kw_chat_model : string;
  kw_messages : list (gmap string string);
  kw_chat_temperature : option float;
  kw_chat_max_tokens : option Z;
  kw_stream : option bool
}.

(** Keyword arguments of [client.completions.create]. *)
Record completion_create_kwargs := mkCompletionCreate {
  kw_model : string;
  kw_prompt : string;
  kw_temperature : option float;
  kw_max_tokens : option Z
}.

Inductive upstream_call :=
| ChatCompletionsCreate (c : client) (kw : chat_create_kwargs)
| CompletionsCreate (c : client) (kw : completion_create_kwargs).

(** What an upstream stream does when iterated: it yields chunks, then
    either ends or raises. *)
Inductive upstream_stream :=
| SEnd
| SRaise (e : exn)
| SChunk (c : chunk) (rest : upstream_stream).

(** What a [create] call returns: a completion object, or a stream. *)
Inductive sdk_response :=
| Completion (obj : completion_obj)
| AsyncStream (s : upstream_stream).

Inductive response :=
| JSONResponse (status_code : Z) (body : json)
| StreamingResponse (status_code : Z) (media_type : string) (frames : list string)
| PlainTextResponse (status_code : Z) (text : string).

Definition status_of (r : response) : Z :=
  match r with
  | JSONResponse sc _ | StreamingResponse sc _ _ | PlainTextResponse sc _ => sc
  end.

(** The provider capability: the outcome of each call the server makes. *)
Variable upstream : upstream_call -> result sdk_response.

(** Handler code threads the list of provider calls made so far and may
    raise. *)
Definition handler (A : Type) : Type :=
  list upstream_call -> result A * list upstream_call.

#[global] Instance handler_ret : MRet handler := fun A a log => (Ok a, log).

#[global] Instance handler_bind : MBind handler := fun A B k m log =>
  match m log with
  | (Ok a, log') => k a log'
  | (Raise e, log') => (Raise e, log')
  end.

(** Code that raises or returns without calling upstream. *)
Definition lift {A} (r : result A) : handler A := fun log => (r, log).

(** [await client....create(...)]: the call is recorded, then its outcome
    is the provider's. *)
Definition await (call : upstream_call) : handler sdk_response :=
  fun log => (upstream call, log ++ [call]).

(** [try: m except Exception as e: h e] *)
Definition try_except {A} (m : handler A) (h : exn -> handler A) : handler A :=
  fun log =>
    match m log with
    | (Ok a, log') => (Ok a, log')
    | (Raise e, log') => h e log'
    end.

(** Truth value of [Optional[bool]] *)
Definition truthy_flag (o : option bool) : bool :=
  match o with Some true => true | _ => false end.

(** *** The streaming generator *)

Definition data_frame (payload : string) : string :=
  "data: " +:+ payload +:+ PyStr.LF +:+ PyStr.LF.

Definition chunk_frame (c : chunk) : string := data_frame (model_dump_json c).

Definition done_frame : string := data_frame "[DONE]".

Definition error_frame (e : exn) : string :=
  data_frame (json_dumps (JObj [("error", JStr (str e))])).

(** State of the generator object [generate()]: about to resume the loop
    over what is left of the upstream response, or exhausted. *)
Inductive gen_state :=
| Iterating (r : sdk_response)
| Exhausted.

(** Iterating a completion object, which is no async iterator. *)
Definition not_async_iterable : exn :=
  PyExc ClsTypeError "'async for' requires an object with __aiter__ method" None.

(** One [__anext__] of [generate()]: the frame yielded and the next state,
    or [None] when the generator has returned. *)
Definition anext (g : gen_state) : option (string * gen_state) :=
  match g with
  | Iterating (AsyncStream (SChunk c rest)) =>
      Some (chunk_frame c, Iterating (AsyncStream rest))
  | Iterating (AsyncStream SEnd) => Some (done_frame, Exhausted)
  | Iterating (AsyncStream (SRaise e)) => Some (error_frame e, Exhausted)
  | Iterating (Completion _) => Some (error_frame not_async_iterable, Exhausted)
  | Exhausted => None
  end.

(** The consumer ([StreamingResponse]) pulls frames until the generator
    returns; [fuel] bounds the number of pulls. *)
Fixpoint drain (fuel : nat) (g : gen_state) : list string :=
  match fuel with
  | O => []
  | S n => match anext g with
           | Some (f, g') => f :: drain n g'
           | None => []
           end
  end.

Fixpoint stream_length (s : upstream_stream) : nat :=
  match s with
  | SEnd | SRaise _ => 0
  | SChunk _ rest => S (stream_length rest)
  end.

(** Number of pulls after which the generator has returned. *)
Definition pulls (g : gen_state) : nat :=
  match g with
  | Iterating (AsyncStream s) => S (S (stream_length s))
  | Iterating (Completion _) => 2
  | Exhausted => 1
  end.

(** All frames of [generate()] for the response [r]. *)
Definition generate (r : sdk_response) : list string :=
  drain (pulls (Iterating r)) (Iterating r).

(** *** Handlers *)

(** The four [except] clauses shared by both endpoints, tried in the
    order written. *)
Definition except_clauses {A} (e : exn) : handler A :=
  if isinstance e ClsRateLimitError then
    lift (Raise (HTTPException 429 "Upstream rate limit exceeded"))
  else if isinstance e ClsAuthenticationError then
    lift (Raise (HTTPException 401 "Upstream authentication failed"))
  else if isinstance e ClsAPIError then
    let status_code := PyStr.int_or (getattr_status_code e 502) 502 in
    lift (Raise (HTTPException status_code (str e)))
  else
    lift (Raise (HTTPException 500 (str e))).

(** The message dictionary built for the SDK from one [ChatMessage]. *)
Definition message_dict (msg : ChatMessage) : gmap string string :=
  {[ "role" := role msg; "content" := content msg ]}.

Definition no_model_dump : exn :=
  PyExc ClsAttributeError "'AsyncStream' object has no attribute 'model_dump'" None.

(** [chat_completion], after the [Depends] of its signature has run. *)
Definition chat_completion (g : globals) (request : ChatCompletionRequest)
    : handler response :=
  try_except
    (client ← lift (get_client g (chat_model request));
     response ← await (ChatCompletionsCreate client
                   (mkChatCreate (chat_model request)
                      (map message_dict (messages request))
                      (chat_temperature request)
                      (chat_max_tokens request)
                      (stream request)));
     if truthy_flag (stream request) then
       mret (StreamingResponse 200 "text/event-stream" (generate response))
     else
       match response with
       | Completion obj => mret (JSONResponse 200 (model_dump obj))
       | AsyncStream _ => lift (Raise no_model_dump)
       end)
    except_clauses.

(** [completion], after the [Depends] of its signature has run. *)
Definition completion (g : globals) (request : CompletionRequest)
    : handler response :=
  try_except
    (client ← lift (get_client g (model request));
     response ← await (CompletionsCreate client
                   (mkCompletionCreate (model request) (prompt request)
                      (temperature request) (max_tokens request)));
     match response with
     | Completion obj => mret (JSONResponse 200 (model_dump obj))
     | AsyncStream _ => lift (Raise no_model_dump)
     end)
    except_clauses.

(** [health_check] *)
Definition health_check : json :=
  JObj [("status", JStr "ok"); ("message", JStr "Proxy is ready")].

Definition model_entry (id owner : string) : json :=
  JObj [("id", JStr id); ("object", JStr "model"); ("owned_by", JStr owner)].

(** [list_models] *)
Definition list_models (g : globals) : json :=
  let models :=
    (if bool_decide (is_Some (openai_client g))
     then [model_entry "gpt-4o" "openai"; model_entry "gpt-4o-mini" "openai";
           model_entry "gpt-4-turbo" "openai"]
     else []) ++
    (if bool_decide (is_Some (azure_client g))
     then [model_entry "azure-gpt-4" "azure"; model_entry "azure-gpt-4-turbo" "azure";
           model_entry "azure-gpt-35-turbo" "azure"]
     else []) in
  JObj [("object", JStr "list"); ("data", JArr models)].

(** [root] *)
Definition root (g : globals) : json :=
  JObj [("name", JStr "OpenAI API Proxy");
        ("version", JStr "1.1.0");
        ("features", JArr [JStr "async"; JStr "azure-identity"]);
        ("endpoints",
          JObj [("chat_completions", JStr "/chat/completions");
                ("completions", JStr "/completions");
                ("embeddings", JStr "/embeddings");
                ("models", JStr "/models");
                ("health", JStr "/health/readiness")]);
        ("supported_providers",
          JObj [("openai", JBool (bool_decide (is_Some (openai (config g)))));
                ("azure_openai", JBool (bool_decide (is_Some (azure_openai (config g)))));
                ("azure_identity_enabled",
                  JBool (match azure_openai (config g) with
                         | Some a => AzureOpenAIConfig.use_azure_identity a
                         | None => false
                         end))])].

(** *** The application: routes, dependencies, exception handler *)

(** A request that matched a route and passed schema validation. *)
Inductive request :=
| GET_health_readiness
| GET_models
| POST_chat_completions (body : ChatCompletionRequest)
| POST_completions (body : CompletionRequest)
| GET_root.

(** Routes whose signature carries [Depends(authenticate_request)]. *)
Definition depends_on_auth (r : request) : bool :=
  match r with
  | GET_models | POST_chat_completions _ | POST_completions _ => true
  | GET_health_readiness | GET_root => false
  end.

(** The route function itself. *)
Definition endpoint (g : globals) (r : request) : handler response :=
  match r with
  | GET_health_readiness => mret (JSONResponse 200 health_check)
  | GET_models => mret (JSONResponse 200 (list_models g))
  | POST_chat_completions body => chat_completion g body
  | POST_completions body => completion g body
  | GET_root => mret (JSONResponse 200 (root g))
  end.

(** The framework's answer to an exception leaving a route or one of its
    dependencies: an [HTTPException] becomes its status with the body
    [{"detail": detail}], anything else a bare 500. *)
Definition exception_handler (e : exn) : response :=
  match e with
  | HTTPException sc d => JSONResponse sc (JObj [("detail", JStr d)])
  | PyExc _ _ _ => PlainTextResponse 500 "Internal Server Error"
  end.

(** One request through the application: the dependency runs first, the
    route only when it returned. *)
Definition serve (g : globals) (auth_header : option string) (r : request)
    : response * list upstream_call :=
  let run : handler response :=
    if depends_on_auth r
    then (_ ← lift (authenticate_request g auth_header); endpoint g r)
    else endpoint g r in
  match run [] with
  | (Ok resp, log) => (resp, log)
  | (Raise e, log) => (exception_handler e, log)
  end.

End Server.

Arguments ChatCompletionsCreate {_} c kw.
Arguments CompletionsCreate {_} c kw.

(* ------------------------------------------------------------------ *)
(** ** Streams with a given shape *)

Section Streams.
Context `{External}.

(** The stream that yields the chunks [cs] and then behaves as [tail]. *)
Fixpoint chunks_then (cs : list chunk) (tail : upstream_stream) : upstream_stream :=
  match cs with
  | [] => tail
  | c :: cs' => SChunk c (chunks_then cs' tail)
  end.

(** A stream that yields [cs] and completes. *)
Definition completed_stream (cs : list chunk) : upstream_stream :=
  chunks_then cs SEnd.

(** A stream that yields [cs] and then raises [e]. *)
Definition failing_stream (cs : list chunk) (e : exn) : upstream_stream :=
  chunks_then cs (SRaise e).

(** The keyword arguments [chat_completion] passes for [request]. *)
Definition chat_call (c : client) (request : ChatCompletionRequest) : upstream_call :=
  ChatCompletionsCreate c
    (mkChatCreate (chat_model request) (map message_dict (messages request))
       (chat_temperature request) (chat_max_tokens request) (stream request)).

(** The keyword arguments [completion] passes for [request]. *)
Definition completion_call (c : client) (request : CompletionRequest) : upstream_call :=
  CompletionsCreate c
    (mkCompletionCreate (model request) (prompt request)
       (temperature request) (max_tokens request)).

(** The [detail] string of a response body [{"detail": ...}]. *)
Definition detail_of (r : response) : option string :=
  match r with
  | JSONResponse _ (JObj [(k, JStr d)]) =>
      if String.eqb k "detail" then Some d else None
  | _ => None
  end.

End Streams.

(* ------------------------------------------------------------------ *)
(** ** The [try] blocks of the two handlers *)

Section TryBlocks.
Context `{External}.
Variable upstream : upstream_call -> result sdk_response.

(** The statements between [try:] and the first [except] of
    [chat_completion]. *)
Definition chat_try_block (g : globals) (request : ChatCompletionRequest)
    : handler response :=
  client ← lift (get_client g (chat_model request));
  response ← await upstream (ChatCompletionsCreate client
                (mkChatCreate (chat_model request)
                   (map message_dict (messages request))
                   (chat_temperature request)
                   (chat_max_tokens request)
                   (stream request)));
  if truthy_flag (stream request) then
    mret (StreamingResponse 200 "text/event-stream" (generate response))
  else
    match response with
    | Completion obj => mret (JSONResponse 200 (model_dump obj))
    | AsyncStream _ => lift (Raise no_model_dump)
    end.

(** The statements between [try:] and the first [except] of [completion]. *)
Definition completion_try_block (g : globals) (request : CompletionRequest)
    : handler response :=
  client ← lift (get_client g (model request));
  response ← await upstream (CompletionsCreate client
                (mkCompletionCreate (model request) (prompt request)
                   (temperature request) (max_tokens request)));
  match response with
  | Completion obj => mret (JSONResponse 200 (model_dump obj))
  | AsyncStream _ => lift (Raise no_model_dump)
  end.

End TryBlocks.

(* ------------------------------------------------------------------ *)
(** ** The router as the specification words it *)

(** Section 4.2 of the specification, rule by rule: [direct] and [gateway]
    are the registered handles, the result [None] is the no-provider
    sentinel. *)
Definition select_provider (direct gateway : option client) (model_name : string)
    : option client :=
  if bool_decide (is_Some direct) && PyStr.startswith "gpt-" model_name
  then direct
  else if bool_decide (is_Some gateway) &&
          (PyStr.startswith "azure-" model_name || PyStr.contains "gpt" model_name)
  then gateway
  else if bool_decide (is_Some gateway) then gateway
  else if bool_decide (is_Some direct) then direct
  else None.

(* ------------------------------------------------------------------ *)
(** ** The error normaliser as a relation *)

(** The status an upstream failure [e] is answered with, clause by clause;
    each clause applies only when the clauses before it did not. *)
Definition normalized_status (e : exn) (status : Z) : Prop :=
  (isinstance e ClsRateLimitError = true -> status = 429) /\
  (isinstance e ClsRateLimitError = false ->
   isinstance e ClsAuthenticationError = true -> status = 401) /\
  (isinstance e ClsRateLimitError = false ->
   isinstance e ClsAuthenticationError = false ->
   isinstance e ClsAPIError = true ->
     (forall cls msg sc, e = PyExc cls msg (Some sc) -> sc <> 0 -> status = sc) /\
     (forall cls msg, e = PyExc cls msg None -> status = 502)) /\
  (isinstance e ClsRateLimitError = false ->
   isinstance e ClsAuthenticationError = false ->
   isinstance e ClsAPIError = false -> status = 500).

(** The [detail] string the same failure is answered with. *)
Definition normalized_detail (e : exn) (detail : string) : Prop :=
  (isinstance e ClsRateLimitError = true ->
   detail = "Upstream rate limit exceeded") /\
  (isinstance e ClsRateLimitError = false ->
   isinstance e ClsAuthenticationError = true ->
   detail = "Upstream authentication failed") /\
  (isinstance e ClsRateLimitError = false ->
   isinstance e ClsAuthenticationError = false -> detail = str e).

(* ------------------------------------------------------------------ *)
(** ** A concrete deployment for the examples *)

Module Demo.

Definition DQ : string := String (ascii_of_nat 34) EmptyString.
Definition BS : string := String (ascii_of_nat 92) EmptyString.

(** String escaping of [json.dumps] on printable ASCII text and line
    feeds, which is all the examples use. *)
Fixpoint escape (s : string) : string :=
  match s with
  | EmptyString => EmptyString
  | String c s' =>
      (if Ascii.eqb c (ascii_of_nat 34) then BS +:+ DQ
       else if Ascii.eqb c (ascii_of_nat 92) then BS +:+ BS
       else if Ascii.eqb c (ascii_of_nat 10) then BS +:+ "n"
       else String c EmptyString) +:+ escape s'
  end.

Definition quote (s : string) : string := DQ +:+ escape s +:+ DQ.

Fixpoint dumps (j : json) : string :=
  match j with
  | JStr s => quote s
  | JBool b => if b then "true" else "false"
  | JArr items =>
      "[" +:+
      (fix go (l : list json) : string :=
         match l with
         | [] => ""
         | [x] => dumps x
         | x :: r => dumps x +:+ ", " +:+ go r
         end) items +:+ "]"
  | JObj fields =>
      "{" +:+
      (fix go (l : list (string * json)) : string :=
         match l with
         | [] => ""
         | [(k, v)] => quote k +:+ ": " +:+ dumps v
         | (k, v) :: r => quote k +:+ ": " +:+ dumps v +:+ ", " +:+ go r
         end) fields +:+ "}"
  end.

(** [int] on a plain run of decimal digits. *)
Fixpoint digits (acc : Z) (s : string) : option Z :=
  match s with
  | EmptyString => Some acc
  | String c s' =>
      match Ascii.is_nat c with
      | Some d => digits (10 * acc + Z.of_nat d) s'
      | None => None
      end
  end.

Definition int (s : string) : option Z :=
  match s with
  | EmptyString => None
  | _ => digits 0 s
  end.

(** Floats are kept as the literal of the request body, chunks and
    completion objects as the JSON they serialise to. *)
#[global] Instance ext : External := {|
  float := string;
  completion_obj := json;
  chunk := string;
  model_dump := fun j => j;
  model_dump_json := fun c => c;
  json_dumps := dumps;
  py_int := int
|}.

Definition openai_only : globals :=
  mkGlobals (Some (AsyncOpenAI "sk-upstream" "https://api.openai.com/v1" None)) None
    (mkProxyConfig
       (Some (OpenAIConfig.mk "sk-upstream" "https://api.openai.com/v1" None))
       None "sk-1234" 4000 "0.0.0.0").

Definition the_openai_client : client :=
  AsyncOpenAI "sk-upstream" "https://api.openai.com/v1" None.

Definition the_azure_client : client :=
  AsyncAzureOpenAI (AzureApiKey (Some "azure-key")) "2024-02-15-preview"
    "https://example.openai.azure.com" "gpt-4".

Definition both_providers : globals :=
  mkGlobals (Some the_openai_client) (Some the_azure_client)
    (mkProxyConfig
       (Some (OpenAIConfig.mk "sk-upstream" "https://api.openai.com/v1" None))
       (Some (AzureOpenAIConfig.mk (Some "azure-key") "2024-02-15-preview"
                "https://example.openai.azure.com" "gpt-4" false))
       "sk-1234" 4000 "0.0.0.0").

Definition no_providers : globals :=
  mkGlobals None None (mkProxyConfig None None "sk-1234" 4000 "0.0.0.0").

Definition hi : ChatMessage := mkChatMessage "user" "hi" None.

Definition hi_from_alice : ChatMessage := mkChatMessage "user" "hi" (Some "alice").

Definition chat_request (msgs : list ChatMessage) (streaming : option bool)
    : ChatCompletionRequest :=
  mkChatCompletionRequest "gpt-4o" msgs (Some "0.7") None streaming.

Definition text_request : CompletionRequest :=
  mkCompletionRequest "gpt-4o" "Say hi" (Some "0.7") (Some 16).

(** Provider behaviours. *)
Definition always_returns (r : sdk_response) : upstream_call -> result sdk_response :=
  fun _ => Ok r.

Definition always_raises (e : exn) : upstream_call -> result sdk_response :=
  fun _ => Raise e.

Definition a_completion : @completion_obj ext :=
  JObj [("object", JStr "chat.completion")].

Definition good_header : option string := Some "Bearer sk-1234".

Definition two_chunks : list (@chunk ext) := ["c1"; "c2"].

Definition one_chunk : list (@chunk ext) := ["c1"].

Definition connection_reset : exn := PyExc ClsAPIConnectionError "reset" None.

End Demo.

(* ------------------------------------------------------------------ *)
(** ** Entry points: [start_proxy.py] and the [__main__] block *)

(** [check_environment] of [start_proxy.py]: its verdict on the process
    environment (the messages it logs are not part of the verdict). *)
Definition check_environment (env : gmap string string) : bool :=
  let openai_key := getenv env "OPENAI_API_KEY" in
  let azure_key := getenv env "AZURE_OPENAI_API_KEY" in
  let azure_endpoint := getenv env "AZURE_ENDPOINT" in
  let use_azure_identity :=
    String.eqb (PyStr.lower (getenv_default env "USE_AZURE_IDENTITY" "false")) "true" in
  let azure_ad_token := getenv env "AZURE_AD_TOKEN" in
  let has_openai := PyStr.truthy_opt openai_key in
  let has_azure :=
    PyStr.truthy_opt azure_endpoint &&
    (PyStr.truthy_opt azure_key || use_azure_identity || PyStr.truthy_opt azure_ad_token) in
  if negb has_openai && negb has_azure then false else true.

(** How a launch ends: the process exits with a code, dies on an uncaught
    exception, or reaches [uvicorn.run] with the globals set. *)
Inductive launch :=
| Exit (code : Z)
| Crashed (e : exn)
| Serving (g : globals) (listen_host : string) (listen_port : Z).

Section EntryPoints.
Context `{External}.

(** [main] of [start_proxy.py], on the environment as it is once the
    [.env] file has been loaded.  [imports_ok] tells whether importing the
    server module and [uvicorn] succeeds; every exception inside the [try]
    ends in [sys.exit(1)]. *)
Definition start_proxy_main (imports_ok AZURE_IDENTITY_AVAILABLE : bool)
    (env : gmap string string) : launch :=
  if negb (check_environment env) then Exit 1
  else if negb imports_ok then Exit 1
  else
    match (g ← initialize_clients AZURE_IDENTITY_AVAILABLE env;
           p ← int_of_str (getenv_default env "PORT" "4000");
           Ok (g, p)) with
    | Ok (g, p) => Serving g (getenv_default env "HOST" "0.0.0.0") p
    | Raise _ => Exit 1
    end.

(** [load_dotenv(env_path)] with its default [override=False]: the
    variables of the [.env] file are added to the process environment, a
    variable that is already set keeps its value. *)
Definition load_dotenv (dotenv env : gmap string string) : gmap string string :=
  env ∪ dotenv.

(** [main] of [start_proxy.py] from the start: [dotenv] is the content of
    the [.env] file beside the script ([None]: there is no such file). *)
Definition start_proxy (imports_ok AZURE_IDENTITY_AVAILABLE : bool)
    (dotenv : option (gmap string string)) (env : gmap string string) : launch :=
  start_proxy_main imports_ok AZURE_IDENTITY_AVAILABLE
    (match dotenv with
     | Some d => load_dotenv d env
     | None => env
     end).

(** The [if __name__ == "__main__"] block of [proxy_server.py]: nothing
    catches what [initialize_clients] raises. *)
Definition proxy_server_main (AZURE_IDENTITY_AVAILABLE : bool)
    (env : gmap string string) : launch :=
  match initialize_clients AZURE_IDENTITY_AVAILABLE env with
  | Raise e => Crashed e
  | Ok g =>
      if negb (bool_decide (is_Some (openai_client g))) &&
         negb (bool_decide (is_Some (azure_client g)))
      then Exit 1
      else Serving g (host (config g)) (port (config g))
  end.

End EntryPoints.

(* ------------------------------------------------------------------ *)
(** ** Conditions on the environment *)

(** The variable [k] is set to a non-empty value. *)
Definition env_nonempty (env : gmap string string) (k : string) : Prop :=
  exists v, env !! k = Some v /\ v <> "".

(** Azure identity is asked for: [AZURE_AD_TOKEN] is set (to anything), or
    [USE_AZURE_IDENTITY] reads [true] in any letter case. *)
Definition azure_ad_requested (env : gmap string string) : Prop :=
  is_Some (env !! "AZURE_AD_TOKEN") \/
  PyStr.lower (default "false" (env !! "USE_AZURE_IDENTITY")) = "true".

(** The environment asks for an Azure section. *)
Definition azure_section_requested (env : gmap string string) : Prop :=
  env_nonempty env "AZURE_ENDPOINT" /\
  (env_nonempty env "AZURE_OPENAI_API_KEY" \/ azure_ad_requested env).

(** Environments for the examples. *)
Module Env.

Definition openai : gmap string string := {[ "OPENAI_API_KEY" := "sk-upstream" ]}.

Definition custom_key : gmap string string := {[ "MASTER_KEY" := "s3cret" ]}.

Definition azure_without_deployment : gmap string string :=
  {[ "AZURE_ENDPOINT" := "https://example.openai.azure.com";
     "AZURE_OPENAI_API_KEY" := "azure-key" ]}.

Definition azure_identity : gmap string string :=
  {[ "AZURE_ENDPOINT" := "https://example.openai.azure.com";
     "AZURE_DEPLOYMENT" := "gpt-4";
     "USE_AZURE_IDENTITY" := "True" ]}.

(** An empty [AZURE_AD_TOKEN]: set for the server, blank for the start-up
    check. *)
Definition azure_blank_token : gmap string string :=
  {[ "AZURE_ENDPOINT" := "https://example.openai.azure.com";
     "AZURE_DEPLOYMENT" := "gpt-4";
     "AZURE_AD_TOKEN" := "" ]}.

Definition custom_key_globals : globals :=
  mkGlobals None None (mkProxyConfig None None "s3cret" 4000 "0.0.0.0").

End Env.

(* ================================================================== *)
(** * Properties *)

(** ** Facts about the string operations *)

Lemma startswith_app p t : PyStr.startswith p (p +:+ t) = true.
Proof.
  induction p as [|a p IH]; [reflexivity|].
  change (String a p +:+ t) with (String a (p +:+ t)).
  cbn [PyStr.startswith]. rewrite Ascii.eqb_refl. exact IH.
Qed.

Lemma startswith_inv p s :
  PyStr.startswith p s = true -> exists t, s = p +:+ t.
Proof.
  revert s. induction p as [|a p IH]; intros s Hs.
  - exists s. reflexivity.
  - destruct s as [|b s]; [discriminate|]. cbn in Hs.
    destruct (Ascii.eqb a b) eqn:E; [|discriminate].
    apply Ascii.eqb_eq in E. subst b.
    destruct (IH _ Hs) as [t ->]. exists t. reflexivity.
Qed.

Lemma slice_from_app p t : PyStr.slice_from (String.length p) (p +:+ t) = t.
Proof.
  induction p as [|a p IH]; [reflexivity|].
  change (String a p +:+ t) with (String a (p +:+ t)). exact IH.
Qed.

(** A name with the gateway prefix never has the direct prefix. *)
Lemma azure_prefix_not_gpt m :
  PyStr.startswith "azure-" m = true -> PyStr.startswith "gpt-" m = false.
Proof.
  intros Hm. destruct (startswith_inv _ _ Hm) as [t ->]. reflexivity.
Qed.

(** ** Facts about the generator and the handlers *)

Section Proofs.
Context `{External}.
Variable upstream : upstream_call -> result sdk_response.

Lemma drain_chunks_then cs tail fuel :
  drain (length cs + fuel) (Iterating (AsyncStream (chunks_then cs tail)))
  = map chunk_frame cs ++ drain fuel (Iterating (AsyncStream tail)).
Proof.
  induction cs as [|c cs IH]; [reflexivity|].
  cbn [length Nat.add chunks_then drain anext map app]. now rewrite IH.
Qed.

Lemma stream_length_chunks_then cs tail :
  stream_length (chunks_then cs tail) = (length cs + stream_length tail)%nat.
Proof. induction cs as [|c cs IH]; [reflexivity|]. cbn. now rewrite IH. Qed.

(** Once the pulls cover the chunks and the closing frame, more pulls
    add nothing: the generator has returned. *)
Lemma drain_completed cs fuel :
  (length cs < fuel)%nat ->
  drain fuel (Iterating (AsyncStream (completed_stream cs)))
  = map chunk_frame cs ++ [done_frame].
Proof.
  intros Hf. replace fuel with (length cs + S (fuel - S (length cs)))%nat by lia.
  unfold completed_stream. rewrite drain_chunks_then.
  cbn [drain anext]. now destruct (fuel - S (length cs))%nat.
Qed.

Lemma drain_failing cs e fuel :
  (length cs < fuel)%nat ->
  drain fuel (Iterating (AsyncStream (failing_stream cs e)))
  = map chunk_frame cs ++ [error_frame e].
Proof.
  intros Hf. replace fuel with (length cs + S (fuel - S (length cs)))%nat by lia.
  unfold failing_stream. rewrite drain_chunks_then.
  cbn [drain anext]. now destruct (fuel - S (length cs))%nat.
Qed.

Lemma generate_completed cs :
  generate (AsyncStream (completed_stream cs)) = map chunk_frame cs ++ [done_frame].
Proof.
  unfold generate. apply drain_completed. cbn [pulls].
  unfold completed_stream. rewrite stream_length_chunks_then. cbn. lia.
Qed.

Lemma generate_failing cs e :
  generate (AsyncStream (failing_stream cs e)) = map chunk_frame cs ++ [error_frame e].
Proof.
  unfold generate. apply drain_failing. cbn [pulls].
  unfold failing_stream. rewrite stream_length_chunks_then. cbn. lia.
Qed.

(** The body of [chat_completion] once routing and the upstream call are
    known. *)
Lemma chat_completion_returned g request c r log :
  get_client g (chat_model request) = Ok c ->
  upstream (chat_call c request) = Ok r ->
  chat_completion upstream g request log =
    if truthy_flag (stream request)
    then (Ok (StreamingResponse 200 "text/event-stream" (generate r)),
          log ++ [chat_call c request])
    else match r with
         | Completion obj =>
             (Ok (JSONResponse 200 (model_dump obj)), log ++ [chat_call c request])
         | AsyncStream _ =>
             except_clauses no_model_dump (log ++ [chat_call c request])
         end.
Proof.
  intros Hc Hu. unfold chat_completion, try_except, mbind, handler_bind, lift, await.
  rewrite Hc. fold (chat_call c request). rewrite Hu.
  destruct (truthy_flag (stream request)); [reflexivity|].
  destruct r; reflexivity.
Qed.

Lemma chat_completion_raised g request c e log :
  get_client g (chat_model request) = Ok c ->
  upstream (chat_call c request) = Raise e ->
  chat_completion upstream g request log =
    except_clauses e (log ++ [chat_call c request]).
Proof.
  intros Hc Hu. unfold chat_completion, try_except, mbind, handler_bind, lift, await.
  rewrite Hc. fold (chat_call c request). now rewrite Hu.
Qed.

Lemma chat_completion_unrouted g request e log :
  get_client g (chat_model request) = Raise e ->
  chat_completion upstream g request log = except_clauses e log.
Proof.
  intros Hc. unfold chat_completion, try_except, mbind, handler_bind, lift.
  now rewrite Hc.
Qed.

Lemma completion_returned g request c obj log :
  get_client g (model request) = Ok c ->
  upstream (completion_call c request) = Ok (Completion obj) ->
  completion upstream g request log =
    (Ok (JSONResponse 200 (model_dump obj)), log ++ [completion_call c request]).
Proof.
  intros Hc Hu. unfold completion, try_except, mbind, handler_bind, lift, await.
  rewrite Hc. fold (completion_call c request). now rewrite Hu.
Qed.

Lemma completion_raised g request c e log :
  get_client g (model request) = Ok c ->
  upstream (completion_call c request) = Raise e ->
  completion upstream g request log =
    except_clauses e (log ++ [completion_call c request]).
Proof.
  intros Hc Hu. unfold completion, try_except, mbind, handler_bind, lift, await.
  rewrite Hc. fold (completion_call c request). now rewrite Hu.
Qed.

Lemma completion_unrouted g request e log :
  get_client g (model request) = Raise e ->
  completion upstream g request log = except_clauses e log.
Proof.
  intros Hc. unfold completion, try_except, mbind, handler_bind, lift.
  now rewrite Hc.
Qed.

(** A protected route behind an accepted credential is the route itself. *)
Lemma serve_authenticated g hdr r :
  depends_on_auth r = true ->
  authenticate_request g hdr = Ok true ->
  serve upstream g hdr r =
    match endpoint upstream g r [] with
    | (Ok resp, log) => (resp, log)
    | (Raise e, log) => (exception_handler e, log)
    end.
Proof.
  intros Hd Ha. unfold serve. rewrite Hd.
  unfold mbind, handler_bind, lift. now rewrite Ha.
Qed.

(** A protected route behind a refused credential never runs. *)
Lemma serve_rejected g hdr r e :
  depends_on_auth r = true ->
  authenticate_request g hdr = Raise e ->
  serve upstream g hdr r = (exception_handler e, []).
Proof.
  intros Hd Ha. unfold serve. rewrite Hd.
  unfold mbind, handler_bind, lift. now rewrite Ha.
Qed.

End Proofs.

(** ** The except chain *)

Section Normaliser.
Context `{External}.

(** Whatever is raised inside the [try], the handler leaves with one
    [HTTPException] whose status and detail follow the clause order; the
    list of calls made is untouched. *)
Lemma except_clauses_shape {A} (e : exn) (log : list upstream_call) :
  exists status detail,
    except_clauses (A:=A) e log = (Raise (HTTPException status detail), log) /\
    normalized_status e status /\ normalized_detail e detail.
Proof.
  unfold except_clauses, lift.
  destruct (isinstance e ClsRateLimitError) eqn:RL.
  { eexists _, _. split; [reflexivity|].
    split; repeat split; intros; congruence. }
  destruct (isinstance e ClsAuthenticationError) eqn:AU.
  { eexists _, _. split; [reflexivity|].
    split; repeat split; intros; congruence. }
  destruct (isinstance e ClsAPIError) eqn:AP.
  - eexists _, _. split; [reflexivity|]. split.
    + repeat split; intros; try congruence.
      * subst e. cbn. unfold PyStr.int_or.
        destruct (Z.eqb_spec sc 0); [contradiction|reflexivity].
      * subst e. reflexivity.
    + repeat split; intros; congruence.
  - eexists _, _. split; [reflexivity|].
    split; repeat split; intros; congruence.
Qed.

(** A status code of [0] is false for [or], so it too becomes 502. *)
Lemma api_error_zero_status {A} cls msg (log : list upstream_call) :
  issubclass cls ClsAPIError = true ->
  issubclass cls ClsRateLimitError = false ->
  issubclass cls ClsAuthenticationError = false ->
  except_clauses (A:=A) (PyExc cls msg (Some 0)) log
  = (Raise (HTTPException 502 msg), log).
Proof.
  intros AP RL AU. unfold except_clauses, isinstance. cbn [class_of].
  now rewrite RL, AU, AP.
Qed.

End Normaliser.

(** ** The auth gate *)

Lemma authenticate_request_accepts g hdr :
  authenticate_request g hdr = Ok true <->
  hdr = Some ("Bearer " +:+ master_key (config g)).
Proof.
  unfold authenticate_request. split.
  - destruct hdr as [h|]; [|discriminate].
    destruct (PyStr.truthy h); [|discriminate]. cbn [negb orb].
    destruct (PyStr.startswith "Bearer " h) eqn:Hp; [|discriminate].
    cbn [negb]. destruct (startswith_inv _ _ Hp) as [t ->].
    change 7%nat with (String.length "Bearer ").
    rewrite slice_from_app.
    destruct (String.eqb t (master_key (config g))) eqn:Ht; [|discriminate].
    apply String.eqb_eq in Ht. now subst t.
  - intros ->.
    change 7%nat with (String.length "Bearer ").
    rewrite startswith_app, slice_from_app, String.eqb_refl. reflexivity.
Qed.

Lemma authenticate_request_rejects g hdr :
  hdr <> Some ("Bearer " +:+ master_key (config g)) ->
  authenticate_request g hdr
    = Raise (HTTPException 401 "Missing Authorization header") \/
  authenticate_request g hdr = Raise (HTTPException 401 "Invalid API key").
Proof.
  intros Hne. pose proof (authenticate_request_accepts g hdr) as [Hacc _].
  unfold authenticate_request in *.
  destruct hdr as [h|]; [|now left].
  destruct (negb (PyStr.truthy h) || negb (PyStr.startswith "Bearer " h));
    [now left|].
  destruct (negb (String.eqb (PyStr.slice_from 7 h) (master_key (config g))));
    [now right|].
  now destruct Hne; apply Hacc.
Qed.

(** ** Loading the configuration *)

Lemma load_config_master_key `{External} env cfg :
  load_config env = Ok cfg ->
  master_key cfg = getenv_default env "MASTER_KEY" "sk-1234".
Proof.
  unfold load_config, mbind, result_bind. intros Hl.
  repeat case_match; simplify_eq; reflexivity.
Qed.

Lemma initialize_clients_config `{External} avail env g :
  initialize_clients avail env = Ok g -> load_config env = Ok (config g).
Proof.
  unfold initialize_clients, mbind, result_bind.
  destruct (load_config env) as [cfg|]; [|discriminate].
  intros [= <-]. reflexivity.
Qed.

(* ================================================================== *)
(** * The claims *)

(** C1. A successful streaming chat completion (stream flag set, the
    provider call returns a stream, every chunk arrives and the stream
    completes) is answered with status 200 and the event-stream media
    type, and its frames are exactly one [data: <json of chunk>] frame
    followed by a blank line per upstream chunk, in arrival order, followed
    by one [data: [DONE]] frame; pulling further from the generator yields
    nothing more.  One upstream call is made. *)
Theorem streaming_success_frames `{External}
    (upstream : upstream_call -> result sdk_response)
    (g : globals) (hdr : option string) (request : ChatCompletionRequest)
    (c : client) (cs : list chunk) :
  authenticate_request g hdr = Ok true ->
  truthy_flag (stream request) = true ->
  get_client g (chat_model request) = Ok c ->
  upstream (chat_call c request) = Ok (AsyncStream (completed_stream cs)) ->
  serve upstream g hdr (POST_chat_completions request)
    = (StreamingResponse 200 "text/event-stream"
         (map (fun ch => "data: " +:+ model_dump_json ch +:+ PyStr.LF +:+ PyStr.LF) cs
          ++ ["data: [DONE]" +:+ PyStr.LF +:+ PyStr.LF]),
       [chat_call c request]) /\
  (forall fuel, (length cs < fuel)%nat ->
     drain fuel (Iterating (AsyncStream (completed_stream cs)))
     = map chunk_frame cs ++ [done_frame]).
Proof.
  intros Ha Hs Hc Hu. split.
  - rewrite serve_authenticated by (reflexivity || assumption).
    cbn [endpoint].
    rewrite (chat_completion_returned _ _ _ _ _ _ Hc Hu), Hs.
    now rewrite generate_completed.
  - intros fuel Hf. now apply drain_completed.
Qed.

Lemma streaming_success_frames_witness :
  serve (Demo.always_returns (AsyncStream (completed_stream Demo.two_chunks)))
      Demo.openai_only Demo.good_header
      (POST_chat_completions (Demo.chat_request [Demo.hi] (Some true)))
    = (StreamingResponse 200 "text/event-stream"
         (map (fun ch => "data: " +:+ model_dump_json ch +:+ PyStr.LF +:+ PyStr.LF)
              Demo.two_chunks
          ++ ["data: [DONE]" +:+ PyStr.LF +:+ PyStr.LF]),
       [chat_call Demo.the_openai_client (Demo.chat_request [Demo.hi] (Some true))]) /\
  (forall fuel, (length Demo.two_chunks < fuel)%nat ->
     drain fuel (Iterating (AsyncStream (completed_stream Demo.two_chunks)))
     = map chunk_frame Demo.two_chunks ++ [done_frame]).
Proof.
  apply (streaming_success_frames
           (Demo.always_returns (AsyncStream (completed_stream Demo.two_chunks)))
           Demo.openai_only Demo.good_header
           (Demo.chat_request [Demo.hi] (Some true))
           Demo.the_openai_client Demo.two_chunks); reflexivity.
Defined.

(** C7. On the streaming path, when the upstream stream raises after any
    number of chunks, the response keeps status 200 and its event-stream
    media type, the frames are those of the chunks that arrived followed by
    exactly one frame carrying [{"error": str(e)}], and the generator then
    returns: no closing [DONE] frame and nothing else follows. *)
Theorem streaming_failure_in_band `{External}
    (upstream : upstream_call -> result sdk_response)
    (g : globals) (hdr : option string) (request : ChatCompletionRequest)
    (c : client) (cs : list chunk) (e : exn) :
  authenticate_request g hdr = Ok true ->
  truthy_flag (stream request) = true ->
  get_client g (chat_model request) = Ok c ->
  upstream (chat_call c request) = Ok (AsyncStream (failing_stream cs e)) ->
  serve upstream g hdr (POST_chat_completions request)
    = (StreamingResponse 200 "text/event-stream"
         (map chunk_frame cs
          ++ ["data: " +:+ json_dumps (JObj [("error", JStr (str e))])
                +:+ PyStr.LF +:+ PyStr.LF]),
       [chat_call c request]) /\
  status_of (serve upstream g hdr (POST_chat_completions request)).1 = 200 /\
  (forall fuel, (length cs < fuel)%nat ->
     drain fuel (Iterating (AsyncStream (failing_stream cs e)))
     = map chunk_frame cs ++ [error_frame e]).
Proof.
  intros Ha Hs Hc Hu.
  assert (serve upstream g hdr (POST_chat_completions request)
          = (StreamingResponse 200 "text/event-stream"
               (map chunk_frame cs ++ [error_frame e]), [chat_call c request])) as Hserve.
  { rewrite serve_authenticated by (reflexivity || assumption).
    cbn [endpoint].
    rewrite (chat_completion_returned _ _ _ _ _ _ Hc Hu), Hs.
    now rewrite generate_failing. }
  split; [exact Hserve|]. split; [now rewrite Hserve|].
  intros fuel Hf. now apply drain_failing.
Qed.

Lemma streaming_failure_in_band_witness :
  serve (Demo.always_returns
           (AsyncStream (failing_stream Demo.one_chunk Demo.connection_reset)))
      Demo.openai_only Demo.good_header
      (POST_chat_completions (Demo.chat_request [Demo.hi] (Some true)))
    = (StreamingResponse 200 "text/event-stream"
         (map chunk_frame Demo.one_chunk
          ++ ["data: " +:+ json_dumps
                (JObj [("error", JStr (str Demo.connection_reset))])
                +:+ PyStr.LF +:+ PyStr.LF]),
       [chat_call Demo.the_openai_client (Demo.chat_request [Demo.hi] (Some true))]) /\
  status_of (serve (Demo.always_returns
           (AsyncStream (failing_stream Demo.one_chunk Demo.connection_reset)))
      Demo.openai_only Demo.good_header
      (POST_chat_completions (Demo.chat_request [Demo.hi] (Some true)))).1 = 200 /\
  (forall fuel, (length Demo.one_chunk < fuel)%nat ->
     drain fuel (Iterating (AsyncStream
        (failing_stream Demo.one_chunk Demo.connection_reset)))
     = map chunk_frame Demo.one_chunk ++ [error_frame Demo.connection_reset]).
Proof.
  apply (streaming_failure_in_band
           (Demo.always_returns
              (AsyncStream (failing_stream Demo.one_chunk Demo.connection_reset)))
           Demo.openai_only Demo.good_header
           (Demo.chat_request [Demo.hi] (Some true))
           Demo.the_openai_client Demo.one_chunk Demo.connection_reset);
    reflexivity.
Defined.

(** C2. [get_client] is the five-rule, first-match-wins selection of the
    specification, for every model name and every registry state: (1) a
    name with the direct prefix [gpt-] and the direct client registered
    give the direct client; (2) otherwise a name with the gateway prefix
    [azure-] or containing [gpt], and the gateway client registered, give
    the gateway client; (3) otherwise a registered gateway client is
    chosen; (4) otherwise a registered direct client; (5) otherwise the
    no-provider outcome.  A name carrying a registered provider's prefix is
    routed to that provider whatever else is registered.  Being a function,
    the selection is deterministic and total. *)
Theorem get_client_first_match (g : globals) (m : string) :
  get_client g m
    = match select_provider (openai_client g) (azure_client g) m with
      | Some c => Ok c
      | None => Raise (HTTPException 400 "No configured AI providers")
      end /\
  (forall c, PyStr.startswith "gpt-" m = true -> openai_client g = Some c ->
     get_client g m = Ok c) /\
  (forall c, (PyStr.startswith "gpt-" m = false \/ openai_client g = None) ->
     (PyStr.startswith "azure-" m = true \/ PyStr.contains "gpt" m = true) ->
     azure_client g = Some c -> get_client g m = Ok c) /\
  (forall c, (PyStr.startswith "gpt-" m = false \/ openai_client g = None) ->
     PyStr.startswith "azure-" m = false -> PyStr.contains "gpt" m = false ->
     azure_client g = Some c -> get_client g m = Ok c) /\
  (forall c, (PyStr.startswith "gpt-" m = false \/ openai_client g = None) ->
     azure_client g = None -> openai_client g = Some c -> get_client g m = Ok c) /\
  (openai_client g = None -> azure_client g = None ->
     get_client g m = Raise (HTTPException 400 "No configured AI providers")) /\
  (forall c, PyStr.startswith "azure-" m = true -> azure_client g = Some c ->
     get_client g m = Ok c).
Proof.
  destruct g as [oc ac cfg]. unfold get_client, select_provider, and_client.
  cbn [openai_client azure_client].
  generalize (azure_prefix_not_gpt m).
  generalize (PyStr.startswith "gpt-" m) (PyStr.startswith "azure-" m)
             (PyStr.contains "gpt" m).
  intros direct_prefix gateway_prefix family Hexcl.
  repeat split; intros;
    destruct oc, ac, direct_prefix, gateway_prefix, family;
    simplify_eq; try reflexivity; try (intuition discriminate).
Qed.

Lemma get_client_first_match_witness :
  get_client Demo.both_providers "azure-gpt-4" = Ok Demo.the_azure_client /\
  get_client Demo.both_providers "gpt-4o" = Ok Demo.the_openai_client /\
  get_client Demo.openai_only "claude-3" = Ok Demo.the_openai_client /\
  get_client Demo.no_providers "gpt-4o"
    = Raise (HTTPException 400 "No configured AI providers").
Proof.
  split; [|split; [|split]].
  - apply (proj2 (proj2 (proj2 (proj2 (proj2 (proj2
            (get_client_first_match Demo.both_providers "azure-gpt-4")))))));
      reflexivity.
  - apply (proj1 (proj2 (get_client_first_match Demo.both_providers "gpt-4o")));
      reflexivity.
  - apply (proj1 (proj2 (proj2 (proj2 (proj2
            (get_client_first_match Demo.openai_only "claude-3"))))));
      [left|..]; reflexivity.
  - apply (proj1 (proj2 (proj2 (proj2 (proj2 (proj2
            (get_client_first_match Demo.no_providers "gpt-4o")))))));
      reflexivity.
Defined.

(** C8. The auth gate accepts exactly the header values made of the
    literal [Bearer ] followed by the configured master key.  Any other
    value, and an absent header, is refused with status 401, and then every
    route that depends on the gate (models, chat completions, completions)
    answers 401 with a [detail] body without calling a provider.  The
    health and root routes are the only ones that do not depend on the
    gate, and they answer 200 whatever the header. *)
Theorem auth_gate `{External}
    (upstream : upstream_call -> result sdk_response)
    (g : globals) (hdr : option string) :
  (authenticate_request g hdr = Ok true <->
   hdr = Some ("Bearer " +:+ master_key (config g))) /\
  (hdr <> Some ("Bearer " +:+ master_key (config g)) ->
   (exists d, authenticate_request g hdr = Raise (HTTPException 401 d)) /\
   (forall r, depends_on_auth r = true ->
      exists d, serve upstream g hdr r
                = (JSONResponse 401 (JObj [("detail", JStr d)]), []))) /\
  (forall r, depends_on_auth (H:=H) r = false <->
             r = GET_health_readiness \/ r = GET_root) /\
  (forall r, depends_on_auth r = false ->
     status_of (serve upstream g hdr r).1 = 200 /\ (serve upstream g hdr r).2 = []).
Proof.
  split; [apply authenticate_request_accepts|]. split; [|split].
  - intros Hne.
    destruct (authenticate_request_rejects g hdr Hne) as [Hr | Hr].
    + split; [eauto|]. intros r Hd. eexists.
      now rewrite (serve_rejected _ _ _ _ _ Hd Hr).
    + split; [eauto|]. intros r Hd. eexists.
      now rewrite (serve_rejected _ _ _ _ _ Hd Hr).
  - intros r. destruct r; cbn; split; intros Hr;
      try discriminate; try tauto; destruct Hr; discriminate.
  - intros r Hr. destruct r; try discriminate; split; reflexivity.
Qed.

Lemma auth_gate_witness :
  (exists d, authenticate_request Demo.openai_only (Some "Bearer wrong")
             = Raise (HTTPException 401 d)) /\
  (forall r, depends_on_auth r = true ->
     exists d, serve (Demo.always_returns (Completion Demo.a_completion))
                 Demo.openai_only (Some "Bearer wrong") r
               = (JSONResponse 401 (JObj [("detail", JStr d)]), [])).
Proof.
  apply (proj1 (proj2 (auth_gate (Demo.always_returns (Completion Demo.a_completion))
                         Demo.openai_only (Some "Bearer wrong")))).
  discriminate.
Defined.

(** C10. When [MASTER_KEY] is not in the environment and start-up
    succeeds, the master key is ["sk-1234"]: the gate accepts the header
    [Bearer sk-1234] and no other, and every route depending on the gate
    answers 401 to any other header. *)
Theorem default_master_key `{External}
    (upstream : upstream_call -> result sdk_response)
    (avail : bool) (env : gmap string string) (g : globals) :
  env !! "MASTER_KEY" = None ->
  initialize_clients avail env = Ok g ->
  master_key (config g) = "sk-1234" /\
  (forall hdr, authenticate_request g hdr = Ok true <-> hdr = Some "Bearer sk-1234") /\
  (forall hdr r, depends_on_auth r = true -> hdr <> Some "Bearer sk-1234" ->
     status_of (serve upstream g hdr r).1 = 401).
Proof.
  intros Henv Hinit.
  assert (master_key (config g) = "sk-1234") as Hk.
  { rewrite (load_config_master_key env _ (initialize_clients_config _ _ _ Hinit)).
    unfold getenv_default. now rewrite Henv. }
  split; [exact Hk|]. split.
  - intros hdr. rewrite authenticate_request_accepts, Hk. reflexivity.
  - intros hdr r Hd Hne.
    assert (hdr <> Some ("Bearer " +:+ master_key (config g))) as Hne'
      by (rewrite Hk; exact Hne).
    destruct (authenticate_request_rejects g hdr Hne') as [Hr | Hr];
      now rewrite (serve_rejected _ _ _ _ _ Hd Hr).
Qed.

Lemma default_master_key_witness :
  initialize_clients true (∅ : gmap string string)
    = Ok Demo.no_providers /\
  master_key (config Demo.no_providers) = "sk-1234" /\
  (forall hdr, authenticate_request Demo.no_providers hdr = Ok true <->
               hdr = Some "Bearer sk-1234") /\
  (forall hdr r, depends_on_auth r = true -> hdr <> Some "Bearer sk-1234" ->
     status_of (serve (Demo.always_returns (Completion Demo.a_completion))
                  Demo.no_providers hdr r).1 = 401).
Proof.
  split; [reflexivity|].
  apply (default_master_key (Demo.always_returns (Completion Demo.a_completion))
           true ∅ Demo.no_providers); reflexivity.
Defined.

(** ** Shared facts for the remaining claims *)

Section Endpoints.
Context `{External}.
Variable upstream : upstream_call -> result sdk_response.

(** An upstream failure on the chat endpoint: one call made, one
    [detail] body, status and detail by clause order. *)
Lemma chat_failure_response g hdr request c e :
  authenticate_request g hdr = Ok true ->
  get_client g (chat_model request) = Ok c ->
  upstream (chat_call c request) = Raise e ->
  exists status detail,
    serve upstream g hdr (POST_chat_completions request)
      = (JSONResponse status (JObj [("detail", JStr detail)]), [chat_call c request]) /\
    normalized_status e status /\ normalized_detail e detail.
Proof.
  intros Ha Hc Hu.
  destruct (except_clauses_shape (A:=response) e [chat_call c request])
    as (s & d & Hx & Hs & Hd).
  exists s, d. split; [|now split].
  rewrite serve_authenticated by (reflexivity || assumption).
  cbn [endpoint]. rewrite (chat_completion_raised _ _ _ _ _ _ Hc Hu).
  cbn [app]. now rewrite Hx.
Qed.

Lemma completion_failure_response g hdr request c e :
  authenticate_request g hdr = Ok true ->
  get_client g (model request) = Ok c ->
  upstream (completion_call c request) = Raise e ->
  exists status detail,
    serve upstream g hdr (POST_completions request)
      = (JSONResponse status (JObj [("detail", JStr detail)]),
         [completion_call c request]) /\
    normalized_status e status /\ normalized_detail e detail.
Proof.
  intros Ha Hc Hu.
  destruct (except_clauses_shape (A:=response) e [completion_call c request])
    as (s & d & Hx & Hs & Hd).
  exists s, d. split; [|now split].
  rewrite serve_authenticated by (reflexivity || assumption).
  cbn [endpoint]. rewrite (completion_raised _ _ _ _ _ _ Hc Hu).
  cbn [app]. now rewrite Hx.
Qed.


(** What the translation keeps: the model, the sampling fields, the
    stream flag, the number and order of the messages and the role and
    content of each; the dictionaries it builds have no [name] key. *)
Lemma translation_fields c request :
  exists kw,
    chat_call c request = ChatCompletionsCreate c kw /\
    kw_chat_model kw = chat_model request /\
    kw_chat_temperature kw = chat_temperature request /\
    kw_chat_max_tokens kw = chat_max_tokens request /\
    kw_stream kw = stream request /\
    length (kw_messages kw) = length (messages request) /\
    (forall i msg, messages request !! i = Some msg ->
       exists d, kw_messages kw !! i = Some d /\
                 d !! "role" = Some (role msg) /\
                 d !! "content" = Some (content msg) /\
                 d !! "name" = None).
Proof.
  eexists. split; [reflexivity|]. cbn.
  repeat split; [now rewrite length_map|].
  intros i msg Hi. exists (message_dict msg).
  rewrite list_lookup_fmap, Hi. unfold message_dict.
  repeat split; now simplify_map_eq.
Qed.

End Endpoints.

(** C3. A failure raised by the upstream call of the chat or of the text
    completion endpoint is answered with the status of the first clause it
    matches: 429 for a rate-limit failure; 401 for an authentication
    failure; for any other API error its own status code when it carries a
    (nonzero) one and 502 when it carries none; 500 for any other
    exception. *)
Theorem upstream_failure_status `{External}
    (upstream : upstream_call -> result sdk_response)
    (g : globals) (hdr : option string) (e : exn) :
  authenticate_request g hdr = Ok true ->
  (forall request c,
     get_client g (chat_model request) = Ok c ->
     upstream (chat_call c request) = Raise e ->
     normalized_status e
       (status_of (serve upstream g hdr (POST_chat_completions request)).1)) /\
  (forall request c,
     get_client g (model request) = Ok c ->
     upstream (completion_call c request) = Raise e ->
     normalized_status e
       (status_of (serve upstream g hdr (POST_completions request)).1)).
Proof.
  intros Ha. split; intros request c Hc Hu.
  - destruct (chat_failure_response upstream g hdr request c e Ha Hc Hu)
      as (s & d & -> & Hs & _). exact Hs.
  - destruct (completion_failure_response upstream g hdr request c e Ha Hc Hu)
      as (s & d & -> & Hs & _). exact Hs.
Qed.

Lemma upstream_failure_status_witness :
  status_of (serve (Demo.always_raises (PyExc ClsRateLimitError "slow down" (Some 429)))
               Demo.openai_only Demo.good_header
               (POST_chat_completions (Demo.chat_request [Demo.hi] None))).1 = 429 /\
  status_of (serve (Demo.always_raises (PyExc ClsAuthenticationError "bad key" (Some 401)))
               Demo.openai_only Demo.good_header
               (POST_completions Demo.text_request)).1 = 401 /\
  status_of (serve (Demo.always_raises (PyExc ClsBadRequestError "bad request" (Some 400)))
               Demo.openai_only Demo.good_header
               (POST_chat_completions (Demo.chat_request [Demo.hi] None))).1 = 400 /\
  status_of (serve (Demo.always_raises Demo.connection_reset)
               Demo.openai_only Demo.good_header
               (POST_completions Demo.text_request)).1 = 502 /\
  status_of (serve (Demo.always_raises (PyExc ClsValueError "oops" None))
               Demo.openai_only Demo.good_header
               (POST_chat_completions (Demo.chat_request [Demo.hi] None))).1 = 500.
Proof.
  split; [|split; [|split; [|split]]].
  - apply (proj1 (proj1 (upstream_failure_status
             (Demo.always_raises (PyExc ClsRateLimitError "slow down" (Some 429)))
             Demo.openai_only Demo.good_header _ eq_refl)
             (Demo.chat_request [Demo.hi] None) Demo.the_openai_client eq_refl eq_refl)).
    reflexivity.
  - apply (proj1 (proj2 (proj2 (upstream_failure_status
             (Demo.always_raises (PyExc ClsAuthenticationError "bad key" (Some 401)))
             Demo.openai_only Demo.good_header _ eq_refl)
             Demo.text_request Demo.the_openai_client eq_refl eq_refl)));
      reflexivity.
  - apply (proj1 (proj1 (proj2 (proj2 (proj1 (upstream_failure_status
             (Demo.always_raises (PyExc ClsBadRequestError "bad request" (Some 400)))
             Demo.openai_only Demo.good_header _ eq_refl)
             (Demo.chat_request [Demo.hi] None) Demo.the_openai_client eq_refl eq_refl)))
             eq_refl eq_refl eq_refl) ClsBadRequestError "bad request" 400 eq_refl).
    discriminate.
  - apply (proj2 (proj1 (proj2 (proj2 (proj2 (upstream_failure_status
             (Demo.always_raises Demo.connection_reset)
             Demo.openai_only Demo.good_header _ eq_refl)
             Demo.text_request Demo.the_openai_client eq_refl eq_refl)))
             eq_refl eq_refl eq_refl) ClsAPIConnectionError "reset" eq_refl).
  - apply (proj2 (proj2 (proj2 (proj1 (upstream_failure_status
             (Demo.always_raises (PyExc ClsValueError "oops" None))
             Demo.openai_only Demo.good_header _ eq_refl)
             (Demo.chat_request [Demo.hi] None) Demo.the_openai_client eq_refl eq_refl))));
      reflexivity.
Defined.

(** C4, as stated, fails: an authenticated chat request with an empty
    message list and a routable model is forwarded to the provider, and
    answered with whatever that call returns (here 200). *)
Lemma empty_messages_counterexample :
  ~ (forall (upstream : upstream_call -> result sdk_response)
            (g : globals) (hdr : option string) (request : ChatCompletionRequest),
       authenticate_request g hdr = Ok true ->
       messages request = [] ->
       status_of (serve upstream g hdr (POST_chat_completions request)).1 = 400 /\
       (serve upstream g hdr (POST_chat_completions request)).2 = []).
Proof.
  intros Hclaim.
  destruct (Hclaim (Demo.always_returns (Completion Demo.a_completion))
              Demo.openai_only Demo.good_header (Demo.chat_request [] None)
              eq_refl eq_refl) as [Hstatus _].
  discriminate Hstatus.
Qed.

(** C4, amended.  The proxy has no check of its own on the message list: a
    chat request with an empty list whose model is routable makes exactly
    one upstream call, carrying the empty list, and the answer is that of
    the call: the completion with status 200 when the provider returns one,
    status 400 when the provider rejects the request with a bad-request
    error of status 400. *)
Theorem empty_messages_forwarded `{External}
    (upstream : upstream_call -> result sdk_response)
    (g : globals) (hdr : option string) (request : ChatCompletionRequest)
    (c : client) :
  authenticate_request g hdr = Ok true ->
  messages request = [] ->
  get_client g (chat_model request) = Ok c ->
  (serve upstream g hdr (POST_chat_completions request)).2
    = [ChatCompletionsCreate c
         (mkChatCreate (chat_model request) [] (chat_temperature request)
            (chat_max_tokens request) (stream request))] /\
  (forall msg,
     upstream (chat_call c request) = Raise (PyExc ClsBadRequestError msg (Some 400)) ->
     (serve upstream g hdr (POST_chat_completions request)).1
       = JSONResponse 400 (JObj [("detail", JStr msg)])) /\
  (forall obj,
     truthy_flag (stream request) = false ->
     upstream (chat_call c request) = Ok (Completion obj) ->
     (serve upstream g hdr (POST_chat_completions request)).1
       = JSONResponse 200 (model_dump obj)).
Proof.
  intros Ha Hm Hc.
  assert (chat_call c request
          = ChatCompletionsCreate c
              (mkChatCreate (chat_model request) [] (chat_temperature request)
                 (chat_max_tokens request) (stream request))) as Hcall.
  { unfold chat_call. now rewrite Hm. }
  rewrite <- Hcall.
  rewrite serve_authenticated by (reflexivity || assumption). cbn [endpoint].
  split; [|split].
  - destruct (upstream (chat_call c request)) as [r|e] eqn:Hu.
    + rewrite (chat_completion_returned _ _ _ _ _ _ Hc Hu).
      destruct (truthy_flag (stream request)); [reflexivity|].
      destruct r as [obj|s]; [reflexivity|].
      destruct (except_clauses_shape (A:=response) no_model_dump ([] ++ [chat_call c request]))
        as (s' & d & -> & _). reflexivity.
    + rewrite (chat_completion_raised _ _ _ _ _ _ Hc Hu).
      destruct (except_clauses_shape (A:=response) e ([] ++ [chat_call c request]))
        as (s' & d & -> & _). reflexivity.
  - intros msg Hu. now rewrite (chat_completion_raised _ _ _ _ _ _ Hc Hu).
  - intros obj Hs Hu. now rewrite (chat_completion_returned _ _ _ _ _ _ Hc Hu), Hs.
Qed.

Lemma empty_messages_forwarded_witness :
  (serve (Demo.always_raises (PyExc ClsBadRequestError "messages is too short" (Some 400)))
     Demo.openai_only Demo.good_header
     (POST_chat_completions (Demo.chat_request [] None))).2
    = [ChatCompletionsCreate Demo.the_openai_client
         (mkChatCreate "gpt-4o" [] (Some "0.7") None None)] /\
  (serve (Demo.always_raises (PyExc ClsBadRequestError "messages is too short" (Some 400)))
     Demo.openai_only Demo.good_header
     (POST_chat_completions (Demo.chat_request [] None))).1
    = JSONResponse 400 (JObj [("detail", JStr "messages is too short")]).
Proof.
  pose proof (empty_messages_forwarded
                (Demo.always_raises
                   (PyExc ClsBadRequestError "messages is too short" (Some 400)))
                Demo.openai_only Demo.good_header (Demo.chat_request [] None)
                Demo.the_openai_client eq_refl eq_refl eq_refl) as [Hlog [Hbad _]].
  split; [exact Hlog | exact (Hbad "messages is too short" eq_refl)].
Defined.

(** C6.  The translation keeps model, temperature, max-tokens, stream flag
    and the order, role and content of the messages, but not the optional
    [name]: a message named ["alice"] reaches the provider as a dictionary
    without a [name] key, the same call a message without a name makes. *)
Theorem message_name_dropped :
  name Demo.hi_from_alice = Some "alice" /\
  (serve (Demo.always_returns (Completion Demo.a_completion))
     Demo.openai_only Demo.good_header
     (POST_chat_completions (Demo.chat_request [Demo.hi_from_alice] None))).2
    = [ChatCompletionsCreate Demo.the_openai_client
         (mkChatCreate "gpt-4o" [{[ "role" := "user"; "content" := "hi" ]}]
            (Some "0.7") None None)] /\
  ({[ "role" := "user"; "content" := "hi" ]} : gmap string string) !! "name" = None /\
  (serve (Demo.always_returns (Completion Demo.a_completion))
     Demo.openai_only Demo.good_header
     (POST_chat_completions (Demo.chat_request [Demo.hi_from_alice] None))).2
    = (serve (Demo.always_returns (Completion Demo.a_completion))
         Demo.openai_only Demo.good_header
         (POST_chat_completions (Demo.chat_request [Demo.hi] None))).2.
Proof.
  split; [reflexivity|]. split; [reflexivity|]. split; [|reflexivity].
  destruct (translation_fields Demo.the_openai_client
              (Demo.chat_request [Demo.hi_from_alice] None))
    as (kw & Hkw & _ & _ & _ & _ & _ & Hmsgs).
  destruct (Hmsgs 0%nat Demo.hi_from_alice eq_refl) as (d & Hd & _ & _ & Hname).
  injection Hkw as <-. injection Hd as <-. exact Hname.
Qed.

(* ================================================================== *)
(** * Further properties of the server and its entry points *)

(** ** Outcomes of the two handlers *)

Section Outcomes.
Context `{External}.
Variable upstream : upstream_call -> result sdk_response.

(** Every run of [chat_completion] either returns a response of status
    200 or raises an [HTTPException]; it adds no call or exactly the one
    call to the routed client. *)
Lemma chat_completion_outcome g request log :
  exists res log',
    chat_completion upstream g request log = (res, log') /\
    ((exists body, res = Ok (JSONResponse 200 body)) \/
     (exists frames, res = Ok (StreamingResponse 200 "text/event-stream" frames)) \/
     (exists status detail, res = Raise (HTTPException status detail))) /\
    (log' = log \/
     exists c, get_client g (chat_model request) = Ok c /\
               log' = log ++ [chat_call c request]).
Proof.
  destruct (get_client g (chat_model request)) as [c|e] eqn:Hc.
  - destruct (upstream (chat_call c request)) as [r|e] eqn:Hu.
    + rewrite (chat_completion_returned _ _ _ _ _ _ Hc Hu).
      destruct (truthy_flag (stream request)).
      { eexists _, _. split; [reflexivity|]. split; [right; left; eauto|eauto]. }
      destruct r as [obj|s].
      { eexists _, _. split; [reflexivity|]. split; [left; eauto|eauto]. }
      destruct (except_clauses_shape (A:=response) no_model_dump
                  (log ++ [chat_call c request])) as (s' & d & -> & _).
      eexists _, _. split; [reflexivity|]. split; [right; right; eauto|eauto].
    + rewrite (chat_completion_raised _ _ _ _ _ _ Hc Hu).
      destruct (except_clauses_shape (A:=response) e
                  (log ++ [chat_call c request])) as (s' & d & -> & _).
      eexists _, _. split; [reflexivity|]. split; [right; right; eauto|eauto].
  - rewrite (chat_completion_unrouted _ _ _ _ _ Hc).
    destruct (except_clauses_shape (A:=response) e log) as (s' & d & -> & _).
    eexists _, _. split; [reflexivity|]. split; [right; right; eauto|eauto].
Qed.

Lemma completion_outcome g request log :
  exists res log',
    completion upstream g request log = (res, log') /\
    ((exists body, res = Ok (JSONResponse 200 body)) \/
     (exists status detail, res = Raise (HTTPException status detail))) /\
    (log' = log \/
     exists c, get_client g (model request) = Ok c /\
               log' = log ++ [completion_call c request]).
Proof.
  destruct (get_client g (model request)) as [c|e] eqn:Hc.
  - destruct (upstream (completion_call c request)) as [r|e] eqn:Hu.
    + destruct r as [obj|s].
      { rewrite (completion_returned _ _ _ _ _ _ Hc Hu).
        eexists _, _. split; [reflexivity|]. split; [left; eauto|eauto]. }
      unfold completion, try_except, mbind, handler_bind, lift, await.
      rewrite Hc. fold (completion_call c request). rewrite Hu.
      destruct (except_clauses_shape (A:=response) no_model_dump
                  (log ++ [completion_call c request])) as (s' & d & -> & _).
      eexists _, _. split; [reflexivity|]. split; [right; eauto|eauto].
    + rewrite (completion_raised _ _ _ _ _ _ Hc Hu).
      destruct (except_clauses_shape (A:=response) e
                  (log ++ [completion_call c request])) as (s' & d & -> & _).
      eexists _, _. split; [reflexivity|]. split; [right; eauto|eauto].
  - rewrite (completion_unrouted _ _ _ _ _ Hc).
    destruct (except_clauses_shape (A:=response) e log) as (s' & d & -> & _).
    eexists _, _. split; [reflexivity|]. split; [right; eauto|eauto].
Qed.

(** The gate either accepts or raises one of its two 401s. *)
Lemma authenticate_request_cases g hdr :
  authenticate_request g hdr = Ok true \/
  exists d, authenticate_request g hdr = Raise (HTTPException 401 d).
Proof.
  unfold authenticate_request. destruct hdr as [h|]; [|eauto].
  destruct (negb (PyStr.truthy h) || negb (PyStr.startswith "Bearer " h)); [eauto|].
  destruct (negb (String.eqb (PyStr.slice_from 7 h) (master_key (config g)))); eauto.
Qed.

(** What [serve] answers, route by route. *)
Lemma serve_outcome g hdr r :
  exists resp log,
    serve upstream g hdr r = (resp, log) /\
    ((exists body, resp = JSONResponse 200 body) \/
     (exists frames, resp = StreamingResponse 200 "text/event-stream" frames) \/
     (exists status detail,
        resp = JSONResponse status (JObj [("detail", JStr detail)]))) /\
    (log = [] \/
     (exists request c, r = POST_chat_completions request /\
        authenticate_request g hdr = Ok true /\
        get_client g (chat_model request) = Ok c /\ log = [chat_call c request]) \/
     (exists request c, r = POST_completions request /\
        authenticate_request g hdr = Ok true /\
        get_client g (model request) = Ok c /\ log = [completion_call c request])).
Proof.
  destruct (depends_on_auth r) eqn:Hd.
  - destruct (authenticate_request_cases g hdr) as [Ha | [d Ha]].
    + rewrite (serve_authenticated _ _ _ _ Hd Ha).
      destruct r; try discriminate; cbn [endpoint].
      * eexists _, _. split; [reflexivity|]. split; [left; eauto|eauto].
      * destruct (chat_completion_outcome g body [])
          as (res & log' & -> & Hres & Hlog).
        destruct Hres as [[b ->] | [[fr ->] | (s & d & ->)]];
          (eexists _, _; split; [reflexivity|]); cbn [exception_handler];
          (split; [eauto 6|]);
          (destruct Hlog as [-> | (c & Hc & ->)]; [eauto|];
           right; left; eauto 8).
      * destruct (completion_outcome g body [])
          as (res & log' & -> & Hres & Hlog).
        destruct Hres as [[b ->] | (s & d & ->)];
          (eexists _, _; split; [reflexivity|]); cbn [exception_handler];
          (split; [eauto 6|]);
          (destruct Hlog as [-> | (c & Hc & ->)]; [eauto|];
           right; right; eauto 8).
    + rewrite (serve_rejected _ _ _ _ _ Hd Ha). cbn [exception_handler].
      eexists _, _. split; [reflexivity|]. split; [eauto 6|eauto].
  - destruct r; try discriminate;
      (eexists _, _; split; [reflexivity|]; split; [left; eauto|eauto]).
Qed.

End Outcomes.

(** ** Extra properties *)

(** X1. A chat completion without the stream flag whose upstream call
    returns a completion object is answered with status 200 and the
    [model_dump] of that object as body, after exactly one upstream call. *)
Theorem chat_success_body `{External}
    (upstream : upstream_call -> result sdk_response)
    (g : globals) (hdr : option string) (request : ChatCompletionRequest)
    (c : client) (obj : completion_obj) :
  authenticate_request g hdr = Ok true ->
  truthy_flag (stream request) = false ->
  get_client g (chat_model request) = Ok c ->
  upstream (chat_call c request) = Ok (Completion obj) ->
  serve upstream g hdr (POST_chat_completions request)
    = (JSONResponse 200 (model_dump obj), [chat_call c request]).
Proof.
  intros Ha Hs Hc Hu.
  rewrite serve_authenticated by (reflexivity || assumption). cbn [endpoint].
  now rewrite (chat_completion_returned _ _ _ _ _ _ Hc Hu), Hs.
Qed.

Lemma chat_success_body_witness :
  serve (Demo.always_returns (Completion Demo.a_completion))
      Demo.openai_only Demo.good_header
      (POST_chat_completions (Demo.chat_request [Demo.hi] (Some false)))
    = (JSONResponse 200 (model_dump Demo.a_completion),
       [chat_call Demo.the_openai_client (Demo.chat_request [Demo.hi] (Some false))]).
Proof.
  apply (chat_success_body (Demo.always_returns (Completion Demo.a_completion))
           Demo.openai_only Demo.good_header
           (Demo.chat_request [Demo.hi] (Some false))
           Demo.the_openai_client Demo.a_completion); reflexivity.
Defined.

(** X2. A text completion whose upstream call returns a completion object
    is answered with status 200 and the [model_dump] of that object, after
    exactly one call to the routed client that carries the model, prompt,
    temperature and max-tokens of the request unchanged. *)
Theorem completion_success_body `{External}
    (upstream : upstream_call -> result sdk_response)
    (g : globals) (hdr : option string) (request : CompletionRequest)
    (c : client) (obj : completion_obj) :
  authenticate_request g hdr = Ok true ->
  get_client g (model request) = Ok c ->
  upstream (completion_call c request) = Ok (Completion obj) ->
  serve upstream g hdr (POST_completions request)
    = (JSONResponse 200 (model_dump obj),
       [CompletionsCreate c
          (mkCompletionCreate (model request) (prompt request)
             (temperature request) (max_tokens request))]).
Proof.
  intros Ha Hc Hu.
  rewrite serve_authenticated by (reflexivity || assumption). cbn [endpoint].
  now rewrite (completion_returned _ _ _ _ _ _ Hc Hu).
Qed.

Lemma completion_success_body_witness :
  serve (Demo.always_returns (Completion Demo.a_completion))
      Demo.openai_only Demo.good_header (POST_completions Demo.text_request)
    = (JSONResponse 200 (model_dump Demo.a_completion),
       [CompletionsCreate Demo.the_openai_client
          (mkCompletionCreate "gpt-4o" "Say hi" (Some "0.7") (Some 16))]).
Proof.
  apply (completion_success_body (Demo.always_returns (Completion Demo.a_completion))
           Demo.openai_only Demo.good_header Demo.text_request
           Demo.the_openai_client Demo.a_completion); reflexivity.
Defined.

(** X3. No request makes more than one upstream call, whatever the
    provider answers: failures are not retried.  A request that is refused
    by the gate, or that goes to the health, models or root routes, makes
    none. *)
Theorem at_most_one_upstream_call `{External}
    (upstream : upstream_call -> result sdk_response)
    (g : globals) (hdr : option string) (r : request) :
  (length (serve upstream g hdr r).2 <= 1)%nat /\
  (authenticate_request g hdr <> Ok true \/ r = GET_health_readiness \/
   r = GET_models \/ r = GET_root ->
   (serve upstream g hdr r).2 = []).
Proof.
  destruct (serve_outcome upstream g hdr r) as (resp & log & Hs & _ & Hlog).
  rewrite Hs. cbn [snd]. split.
  - destruct Hlog as [-> | [(q & c & _ & _ & _ & ->) | (q & c & _ & _ & _ & ->)]];
      cbn; lia.
  - intros Hcase.
    destruct Hlog as [-> | [(q & c & -> & Ha & _) | (q & c & -> & Ha & _)]];
      [reflexivity | |];
      destruct Hcase as [Hn | [Hr | [Hr | Hr]]];
      solve [contradiction | discriminate].
Qed.

(** X4. Whatever happens inside a route or the gate, the caller gets a
    response produced by the route (status 200, JSON or event stream) or a
    JSON object with the single field [detail]; the framework's bare 500
    for an unhandled exception is never the answer. *)
Theorem every_failure_is_a_detail_body `{External}
    (upstream : upstream_call -> result sdk_response)
    (g : globals) (hdr : option string) (r : request) :
  (exists body, (serve upstream g hdr r).1 = JSONResponse 200 body) \/
  (exists frames,
     (serve upstream g hdr r).1 = StreamingResponse 200 "text/event-stream" frames) \/
  (exists status detail,
     (serve upstream g hdr r).1 = JSONResponse status (JObj [("detail", JStr detail)])).
Proof.
  destruct (serve_outcome upstream g hdr r) as (resp & log & Hs & Hresp & _).
  rewrite Hs. exact Hresp.
Qed.

Lemma at_most_one_upstream_call_witness :
  (serve (Demo.always_returns (Completion Demo.a_completion))
     Demo.openai_only (Some "Bearer wrong")
     (POST_chat_completions (Demo.chat_request [Demo.hi] None))).2 = [].
Proof.
  apply (proj2 (at_most_one_upstream_call
                  (Demo.always_returns (Completion Demo.a_completion))
                  Demo.openai_only (Some "Bearer wrong")
                  (POST_chat_completions (Demo.chat_request [Demo.hi] None)))).
  left. discriminate.
Defined.

(** X5. Every model that the models route lists can be routed, and to the
    provider named as its owner: an entry owned by [openai] is routed to
    the registered OpenAI client, an entry owned by [azure] to the
    registered Azure client.  The list is empty exactly when no provider is
    registered. *)
Theorem listed_models_are_routable (g : globals) :
  exists models,
    list_models g = JObj [("object", JStr "list"); ("data", JArr models)] /\
    (forall entry, In entry models ->
       exists id owner c,
         entry = model_entry id owner /\
         get_client g id = Ok c /\
         ((owner = "openai" /\ openai_client g = Some c) \/
          (owner = "azure" /\ azure_client g = Some c))) /\
    (models = [] <-> openai_client g = None /\ azure_client g = None).
Proof.
  destruct g as [[oc|] [ac|] cfg]; eexists; (split; [reflexivity|]); split.
  - intros entry Hin. cbn in Hin.
    destruct Hin as [<-|[<-|[<-|[<-|[<-|[<-|[]]]]]]];
      eexists _, _, _; (split; [reflexivity|]); (split; [reflexivity|]);
      cbn [openai_client azure_client]; eauto.
  - cbn. split; [discriminate | intros [? ?]; discriminate].
  - intros entry Hin. cbn in Hin.
    destruct Hin as [<-|[<-|[<-|[]]]];
      eexists _, _, _; (split; [reflexivity|]); (split; [reflexivity|]);
      cbn [openai_client azure_client]; eauto.
  - cbn. split; [discriminate | intros [? ?]; discriminate].
  - intros entry Hin. cbn in Hin.
    destruct Hin as [<-|[<-|[<-|[]]]];
      eexists _, _, _; (split; [reflexivity|]); (split; [reflexivity|]);
      cbn [openai_client azure_client]; eauto.
  - cbn. split; [discriminate | intros [? ?]; discriminate].
  - intros entry [].
  - cbn. split; [split; reflexivity | reflexivity].
Qed.

(** X6. A successful [get_client] returns one of the registered clients,
    and it succeeds for every model name as soon as one client is
    registered: only an empty registry gives the no-provider error. *)
Theorem get_client_registered_only (g : globals) (m : string) :
  (forall c, get_client g m = Ok c ->
     openai_client g = Some c \/ azure_client g = Some c) /\
  (is_Some (openai_client g) \/ is_Some (azure_client g) ->
     exists c, get_client g m = Ok c) /\
  (forall e, get_client g m = Raise e ->
     openai_client g = None /\ azure_client g = None /\
     e = HTTPException 400 "No configured AI providers").
Proof.
  destruct g as [oc ac cfg]. unfold get_client, and_client.
  cbn [openai_client azure_client].
  generalize (PyStr.startswith "gpt-" m)
             (PyStr.startswith "azure-" m || PyStr.contains "gpt" m).
  intros direct_prefix gateway_match.
  split; [|split].
  - intros c. destruct oc, ac, direct_prefix, gateway_match;
      intros [= <-]; eauto.
  - intros Hreg.
    destruct oc, ac, direct_prefix, gateway_match; eauto;
      destruct Hreg as [[c Hc] | [c Hc]]; discriminate.
  - intros e. destruct oc, ac, direct_prefix, gateway_match;
      intros [= <-]; eauto.
Qed.

Lemma get_client_registered_only_witness :
  exists c, get_client Demo.openai_only "some-unknown-model" = Ok c.
Proof.
  apply (proj1 (proj2 (get_client_registered_only Demo.openai_only "some-unknown-model"))).
  left. eexists. reflexivity.
Defined.

(** X7. The two refusals of the gate are told apart by the header alone.
    The detail is [Invalid API key] exactly when the header starts with
    [Bearer ] and the rest differs from the master key; it is
    [Missing Authorization header] exactly when the header is absent or
    does not start with [Bearer ] (an empty header included). *)
Theorem auth_refusal_details (g : globals) (hdr : option string) :
  (authenticate_request g hdr = Raise (HTTPException 401 "Invalid API key") <->
   exists token, hdr = Some ("Bearer " +:+ token) /\ token <> master_key (config g)) /\
  (authenticate_request g hdr
     = Raise (HTTPException 401 "Missing Authorization header") <->
   hdr = None \/ exists h, hdr = Some h /\ PyStr.startswith "Bearer " h = false).
Proof.
  unfold authenticate_request. destruct hdr as [h|].
  2:{ split; split.
      - discriminate.
      - intros (t & Ht & _). discriminate.
      - intros _. now left.
      - intros _. reflexivity. }
  destruct (PyStr.startswith "Bearer " h) eqn:Hp.
  - destruct (startswith_inv _ _ Hp) as [t ->].
    assert (PyStr.truthy ("Bearer " +:+ t) = true) as -> by reflexivity.
    cbn [negb orb]. change 7%nat with (String.length "Bearer ").
    rewrite slice_from_app.
    assert (forall t', Some ("Bearer " +:+ t) = Some ("Bearer " +:+ t') -> t = t')
      as Hinj.
    { intros t' Ht.
      apply (f_equal (fun o => match o with
                               | Some x => PyStr.slice_from 7 x
                               | None => EmptyString
                               end)) in Ht.
      exact Ht. }
    destruct (String.eqb_spec t (master_key (config g))) as [Heq | Hne]; cbn [negb].
    + split; split.
      * discriminate.
      * intros (t' & Ht & Hne). destruct Hne. rewrite <- (Hinj _ Ht). exact Heq.
      * discriminate.
      * intros [Hnone | (h & [= <-] & Hh)]; [discriminate|].
        rewrite startswith_app in Hh. discriminate.
    + split; split.
      * intros _. exists t. now split.
      * intros _. reflexivity.
      * discriminate.
      * intros [Hnone | (h & [= <-] & Hh)]; [discriminate|].
        rewrite startswith_app in Hh. discriminate.
  - rewrite orb_true_r. split; split.
    + discriminate.
    + intros (t & [= ->] & _). rewrite startswith_app in Hp. discriminate.
    + intros _. right. now exists h.
    + intros _. reflexivity.
Qed.

(** Every upstream stream is a run of chunks that completes or raises. *)
Lemma stream_decompose `{External} (s : upstream_stream) :
  exists cs, s = completed_stream cs \/ exists e, s = failing_stream cs e.
Proof.
  induction s as [|e|c rest [cs [-> | [e ->]]]].
  - exists []. now left.
  - exists []. right. now exists e.
  - exists (c :: cs). now left.
  - exists (c :: cs). right. now exists e.
Qed.

(** X8. However an upstream stream behaves, the generator yields one frame
    per chunk received and then exactly one closing frame: the [DONE]
    frame when the stream completed, the error frame when it raised.  So
    the body is never empty, has one frame more than chunks were received,
    and an error frame is never followed by [DONE]. *)
Theorem generate_one_closing_frame `{External} (s : upstream_stream) :
  length (generate (AsyncStream s)) = S (stream_length s) /\
  exists cs,
    (s = completed_stream cs /\
     generate (AsyncStream s) = map chunk_frame cs ++ [done_frame]) \/
    (exists e, s = failing_stream cs e /\
     generate (AsyncStream s) = map chunk_frame cs ++ [error_frame e]).
Proof.
  destruct (stream_decompose s) as [cs [-> | [e ->]]].
  - split.
    + rewrite generate_completed, length_app, length_map.
      unfold completed_stream. rewrite stream_length_chunks_then. cbn. lia.
    + exists cs. left. split; [reflexivity | apply generate_completed].
  - split.
    + rewrite generate_failing, length_app, length_map.
      unfold failing_stream. rewrite stream_length_chunks_then. cbn. lia.
    + exists cs. right. exists e. split; [reflexivity | apply generate_failing].
Qed.

(** ** The environment and the configuration *)

Lemma truthy_opt_nonempty (env : gmap string string) (k : string) :
  PyStr.truthy_opt (env !! k) = true <-> env_nonempty env k.
Proof.
  unfold env_nonempty. destruct (env !! k) as [[|a v]|]; cbn; split.
  - discriminate.
  - intros (v & [= <-] & Hv). now destruct Hv.
  - intros _. eexists. split; [reflexivity | discriminate].
  - reflexivity.
  - discriminate.
  - intros (v & Hv & _). discriminate.
Qed.

Lemma azure_ad_requested_reflect (env : gmap string string) :
  bool_decide (is_Some (getenv env "AZURE_AD_TOKEN")) ||
  String.eqb (PyStr.lower (getenv_default env "USE_AZURE_IDENTITY" "false")) "true"
  = true <-> azure_ad_requested env.
Proof.
  unfold azure_ad_requested, getenv, getenv_default.
  rewrite orb_true_iff, bool_decide_eq_true, String.eqb_eq. reflexivity.
Qed.

Lemma azure_section_requested_reflect (env : gmap string string) :
  (PyStr.truthy_opt (getenv env "AZURE_OPENAI_API_KEY") ||
   (bool_decide (is_Some (getenv env "AZURE_AD_TOKEN")) ||
    String.eqb (PyStr.lower (getenv_default env "USE_AZURE_IDENTITY" "false")) "true"))
  && PyStr.truthy_opt (getenv env "AZURE_ENDPOINT") = true
  <-> azure_section_requested env.
Proof.
  unfold azure_section_requested.
  rewrite andb_true_iff, orb_true_iff, azure_ad_requested_reflect.
  unfold getenv. rewrite !truthy_opt_nonempty. tauto.
Qed.

(** [load_config] spelled out on the two tests it makes. *)
Lemma load_config_unfold `{External} (env : gmap string string) :
  load_config env =
    let use_azure_ad :=
      bool_decide (is_Some (getenv env "AZURE_AD_TOKEN")) ||
      String.eqb (PyStr.lower (getenv_default env "USE_AZURE_IDENTITY" "false")) "true" in
    let openai_cfg :=
      if PyStr.truthy_opt (env !! "OPENAI_API_KEY")
      then Some (OpenAIConfig.mk (default "" (env !! "OPENAI_API_KEY"))
                   (getenv_default env "OPENAI_BASE_URL" "https://api.openai.com/v1")
                   (env !! "OPENAI_ORGANIZATION"))
      else None in
    let finish azure_cfg :=
      match py_int (getenv_default env "PORT" "4000") with
      | Some p =>
          Ok (mkProxyConfig openai_cfg azure_cfg
                (getenv_default env "MASTER_KEY" "sk-1234") p
                (getenv_default env "HOST" "0.0.0.0"))
      | None => Raise (PyExc ClsValueError (getenv_default env "PORT" "4000") None)
      end in
    if (PyStr.truthy_opt (getenv env "AZURE_OPENAI_API_KEY") || use_azure_ad)
       && PyStr.truthy_opt (getenv env "AZURE_ENDPOINT")
    then match env !! "AZURE_DEPLOYMENT" with
         | Some deployment =>
             finish (Some (AzureOpenAIConfig.mk (env !! "AZURE_OPENAI_API_KEY")
                             (getenv_default env "AZURE_API_VERSION" "2024-02-15-preview")
                             (default "" (env !! "AZURE_ENDPOINT")) deployment
                             use_azure_ad))
         | None => Raise (PyExc ClsValidationError "azure_deployment" None)
         end
    else finish None.
Proof.
  unfold load_config, mbind, result_bind, required_str, int_of_str, getenv.
  cbv zeta.
  destruct (env !! "OPENAI_API_KEY") as [[|a key]|];
    destruct (env !! "AZURE_ENDPOINT") as [[|b ep]|];
    cbn [PyStr.truthy_opt PyStr.truthy default andb];
    rewrite ?andb_false_r, ?andb_true_r;
    repeat case_match; simplify_eq; reflexivity.
Qed.

(** X9. When [load_config] returns, the OpenAI section is present exactly
    when [OPENAI_API_KEY] is set to a non-empty value (an empty key counts
    as unset); it then holds that key, the base URL of [OPENAI_BASE_URL]
    or the public default, and the optional organisation. *)
Theorem openai_section_iff `{External} (env : gmap string string) (cfg : ProxyConfig) :
  load_config env = Ok cfg ->
  (is_Some (openai cfg) <-> env_nonempty env "OPENAI_API_KEY") /\
  (forall o, openai cfg = Some o ->
     env !! "OPENAI_API_KEY" = Some (OpenAIConfig.api_key o) /\
     OpenAIConfig.base_url o
       = default "https://api.openai.com/v1" (env !! "OPENAI_BASE_URL") /\
     OpenAIConfig.organization o = env !! "OPENAI_ORGANIZATION").
Proof.
  rewrite load_config_unfold. cbv zeta. intros Hl.
  rewrite <- truthy_opt_nonempty.
  assert (openai cfg =
            if PyStr.truthy_opt (env !! "OPENAI_API_KEY")
            then Some (OpenAIConfig.mk (default "" (env !! "OPENAI_API_KEY"))
                         (getenv_default env "OPENAI_BASE_URL" "https://api.openai.com/v1")
                         (env !! "OPENAI_ORGANIZATION"))
            else None) as ->.
  { repeat case_match; simplify_eq; reflexivity. }
  clear Hl. destruct (env !! "OPENAI_API_KEY") as [[|a key]|];
    cbn [PyStr.truthy_opt PyStr.truthy default]; split.
  - split; [intros [? ?]; discriminate | discriminate].
  - discriminate.
  - split; [reflexivity | eauto].
  - intros o [= <-]. now repeat split.
  - split; [intros [? ?]; discriminate | discriminate].
  - discriminate.
Qed.

Lemma openai_section_iff_witness :
  is_Some (openai (config Demo.openai_only)) <-> env_nonempty Env.openai "OPENAI_API_KEY".
Proof.
  assert (load_config Env.openai = Ok (config Demo.openai_only)) as Hload
    by (vm_compute; reflexivity).
  apply (proj1 (openai_section_iff Env.openai (config Demo.openai_only) Hload)).
Defined.

(** X10. When [load_config] returns, the Azure section is present exactly
    when [AZURE_ENDPOINT] is non-empty and either [AZURE_OPENAI_API_KEY]
    is non-empty or Azure identity is asked for ([AZURE_AD_TOKEN] set, even
    to the empty string, or [USE_AZURE_IDENTITY] reading [true] in any
    letter case).  The section carries the endpoint, deployment and key of
    the environment, and its identity flag says whether identity was asked
    for. *)
Theorem azure_section_iff `{External} (env : gmap string string) (cfg : ProxyConfig) :
  load_config env = Ok cfg ->
  (is_Some (azure_openai cfg) <-> azure_section_requested env) /\
  (forall a, azure_openai cfg = Some a ->
     env !! "AZURE_ENDPOINT" = Some (AzureOpenAIConfig.azure_endpoint a) /\
     env !! "AZURE_DEPLOYMENT" = Some (AzureOpenAIConfig.azure_deployment a) /\
     AzureOpenAIConfig.api_key a = env !! "AZURE_OPENAI_API_KEY" /\
     AzureOpenAIConfig.api_version a
       = default "2024-02-15-preview" (env !! "AZURE_API_VERSION") /\
     (AzureOpenAIConfig.use_azure_identity a = true <-> azure_ad_requested env)).
Proof.
  rewrite load_config_unfold. cbv zeta. intros Hl.
  rewrite <- azure_section_requested_reflect.
  destruct ((PyStr.truthy_opt (getenv env "AZURE_OPENAI_API_KEY") ||
             (bool_decide (is_Some (getenv env "AZURE_AD_TOKEN")) ||
              String.eqb (PyStr.lower (getenv_default env "USE_AZURE_IDENTITY" "false"))
                "true"))
            && PyStr.truthy_opt (getenv env "AZURE_ENDPOINT")) eqn:Hreq.
  - apply andb_true_iff in Hreq as [_ Hep].
    unfold getenv in Hep.
    destruct (env !! "AZURE_ENDPOINT") as [ep|] eqn:Hendpoint; [|discriminate].
    destruct (env !! "AZURE_DEPLOYMENT") as [dep|]; [|discriminate].
    destruct (py_int (getenv_default env "PORT" "4000")); [|discriminate].
    injection Hl as <-. cbn [azure_openai]. split.
    + split; [reflexivity | eauto].
    + intros a [= <-]. cbn.
      split; [|split; [|split; [|split]]]; try reflexivity.
      apply azure_ad_requested_reflect.
  - destruct (py_int (getenv_default env "PORT" "4000")); [|discriminate].
    injection Hl as <-. cbn [azure_openai]. split.
    + split; [intros [? ?]; discriminate | discriminate].
    + discriminate.
Qed.

Lemma azure_section_iff_witness :
  is_Some (azure_openai (config Demo.both_providers)) <->
  azure_section_requested
    (<["AZURE_DEPLOYMENT" := "gpt-4"]>
       (<["OPENAI_API_KEY" := "sk-upstream"]> Env.azure_without_deployment)).
Proof.
  assert (load_config
            (<["AZURE_DEPLOYMENT" := "gpt-4"]>
               (<["OPENAI_API_KEY" := "sk-upstream"]> Env.azure_without_deployment))
          = Ok (config Demo.both_providers)) as Hload
    by (vm_compute; reflexivity).
  apply (proj1 (azure_section_iff _ (config Demo.both_providers) Hload)).
Defined.

(** X11. [load_config] fails in exactly two ways, in this order: with a
    validation error when an Azure section is asked for but
    [AZURE_DEPLOYMENT] is unset; otherwise with a value error when [PORT]
    (or its default ["4000"]) is not an integer.  In every other
    environment it returns a configuration. *)
Theorem load_config_failures `{External} (env : gmap string string) :
  (forall e, load_config env = Raise e ->
     (azure_section_requested env /\ env !! "AZURE_DEPLOYMENT" = None /\
      class_of e = ClsValidationError) \/
     (~ (azure_section_requested env /\ env !! "AZURE_DEPLOYMENT" = None) /\
      py_int (default "4000" (env !! "PORT")) = None /\
      class_of e = ClsValueError)) /\
  (azure_section_requested env -> env !! "AZURE_DEPLOYMENT" = None ->
     exists e, load_config env = Raise e /\ class_of e = ClsValidationError) /\
  (~ (azure_section_requested env /\ env !! "AZURE_DEPLOYMENT" = None) ->
     py_int (default "4000" (env !! "PORT")) = None ->
     exists e, load_config env = Raise e /\ class_of e = ClsValueError) /\
  (~ (azure_section_requested env /\ env !! "AZURE_DEPLOYMENT" = None) ->
     is_Some (py_int (default "4000" (env !! "PORT"))) ->
     exists cfg, load_config env = Ok cfg).
Proof.
  rewrite load_config_unfold. cbv zeta.
  pose proof (azure_section_requested_reflect env) as Hreq.
  match type of Hreq with (?b = true <-> _) => destruct b end.
  - assert (azure_section_requested env) as Hyes by now apply Hreq.
    clear Hreq. unfold getenv_default.
    destruct (env !! "AZURE_DEPLOYMENT") as [dep|];
      destruct (py_int (default "4000" (env !! "PORT"))) as [p|];
      (split; [intros e He | split; [intros _ Hdep | split; intros Hn Hport]]);
      simplify_eq; cbn [class_of];
      try solve [ left; split; [exact Hyes | split; reflexivity]
                | right; split; [intros [_ ?]; discriminate | split; reflexivity]
                | eexists; split; reflexivity
                | eexists; reflexivity
                | destruct Hport; discriminate
                | destruct Hn; split; [exact Hyes | reflexivity] ].
  - assert (~ azure_section_requested env) as Hno
      by (intros Hx; apply Hreq in Hx; discriminate).
    clear Hreq. unfold getenv_default.
    destruct (py_int (default "4000" (env !! "PORT"))) as [p|];
      (split; [intros e He | split; [intros Hyes Hdep | split; intros Hn Hport]]);
      simplify_eq; cbn [class_of];
      try solve [ contradiction
                | right; split; [intros [? _]; contradiction | split; reflexivity]
                | eexists; split; reflexivity
                | eexists; reflexivity
                | destruct Hport; discriminate ].
Qed.

Lemma load_config_failures_witness :
  exists e, load_config Env.azure_without_deployment = Raise e /\
            class_of e = ClsValidationError.
Proof.
  apply (proj1 (proj2 (load_config_failures Env.azure_without_deployment))).
  - split.
    + exists "https://example.openai.azure.com". split; [reflexivity | discriminate].
    + left. exists "azure-key". split; [reflexivity | discriminate].
  - reflexivity.
Defined.

(** What [initialize_clients] leaves behind, in terms of the environment. *)
Lemma initialize_clients_registry `{External} avail env g :
  initialize_clients avail env = Ok g ->
  (is_Some (openai_client g) <-> PyStr.truthy_opt (env !! "OPENAI_API_KEY") = true) /\
  (is_Some (azure_client g) <->
   (PyStr.truthy_opt (getenv env "AZURE_OPENAI_API_KEY") ||
    (bool_decide (is_Some (getenv env "AZURE_AD_TOKEN")) ||
     String.eqb (PyStr.lower (getenv_default env "USE_AZURE_IDENTITY" "false")) "true"))
   && PyStr.truthy_opt (getenv env "AZURE_ENDPOINT") = true) /\
  host (config g) = getenv_default env "HOST" "0.0.0.0" /\
  py_int (getenv_default env "PORT" "4000") = Some (port (config g)).
Proof.
  unfold initialize_clients, mbind, result_bind.
  rewrite load_config_unfold. cbv zeta.
  destruct ((PyStr.truthy_opt (getenv env "AZURE_OPENAI_API_KEY") ||
             (bool_decide (is_Some (getenv env "AZURE_AD_TOKEN")) ||
              String.eqb (PyStr.lower (getenv_default env "USE_AZURE_IDENTITY" "false"))
                "true"))
            && PyStr.truthy_opt (getenv env "AZURE_ENDPOINT"));
    destruct (PyStr.truthy_opt (env !! "OPENAI_API_KEY"));
    destruct (env !! "AZURE_DEPLOYMENT") as [dep|];
    destruct (py_int (getenv_default env "PORT" "4000")) as [p|];
    try discriminate; intros [= <-]; cbn;
    repeat case_match;
    (split; [|split; [|split]]); try reflexivity;
    split; try discriminate; try (intros [? ?]; discriminate); eauto.
Qed.

(** The registry and the configuration sections go together. *)
Lemma initialize_clients_sections `{External} avail env g :
  initialize_clients avail env = Ok g ->
  openai_client g
    = (fun o => AsyncOpenAI (OpenAIConfig.api_key o) (OpenAIConfig.base_url o)
                  (OpenAIConfig.organization o)) <$> openai (config g) /\
  azure_client g
    = (fun a => AsyncAzureOpenAI
                  (if AzureOpenAIConfig.use_azure_identity a && avail
                   then AzureAdTokenProvider
                   else AzureApiKey (AzureOpenAIConfig.api_key a))
                  (AzureOpenAIConfig.api_version a)
                  (AzureOpenAIConfig.azure_endpoint a)
                  (AzureOpenAIConfig.azure_deployment a)) <$> azure_openai (config g).
Proof.
  unfold initialize_clients, mbind, result_bind.
  destruct (load_config env) as [cfg|]; [|discriminate].
  intros [= <-]. cbn [openai_client azure_client config]. split.
  - now destruct (openai cfg).
  - destruct (azure_openai cfg) as [a|]; [|reflexivity]. cbn.
    now destruct (AzureOpenAIConfig.use_azure_identity a && avail).
Qed.

(** X12. When [MASTER_KEY] is set and start-up succeeds, the gate accepts
    the header [Bearer ] followed by exactly that value, and no other;
    the value is taken as it stands, an empty one included. *)
Theorem master_key_from_environment `{External}
    (avail : bool) (env : gmap string string) (g : globals) (k : string) :
  env !! "MASTER_KEY" = Some k ->
  initialize_clients avail env = Ok g ->
  master_key (config g) = k /\
  (forall hdr, authenticate_request g hdr = Ok true <-> hdr = Some ("Bearer " +:+ k)).
Proof.
  intros Henv Hinit.
  assert (master_key (config g) = k) as Hk.
  { rewrite (load_config_master_key env _ (initialize_clients_config _ _ _ Hinit)).
    unfold getenv_default. now rewrite Henv. }
  split; [exact Hk|]. intros hdr.
  rewrite authenticate_request_accepts, Hk. reflexivity.
Qed.

Lemma master_key_from_environment_witness :
  master_key (config Env.custom_key_globals) = "s3cret" /\
  (forall hdr, authenticate_request Env.custom_key_globals hdr = Ok true <->
               hdr = Some ("Bearer " +:+ "s3cret")).
Proof.
  assert (initialize_clients true Env.custom_key = Ok Env.custom_key_globals) as Hinit
    by (vm_compute; reflexivity).
  apply (master_key_from_environment true Env.custom_key Env.custom_key_globals
           "s3cret" eq_refl Hinit).
Defined.

(** X13. After [initialize_clients], a client is registered exactly when
    its configuration section is present, so the [openai] and
    [azure_openai] flags the root route reads from the configuration are
    the state of the registry used for routing.  The Azure client
    authenticates with the token provider exactly when identity was asked
    for and the [azure.identity] import succeeded; otherwise it is built
    with the API key of the configuration. *)
Theorem registry_matches_config `{External}
    (avail : bool) (env : gmap string string) (g : globals) :
  initialize_clients avail env = Ok g ->
  (is_Some (openai_client g) <-> is_Some (openai (config g))) /\
  (is_Some (azure_client g) <-> is_Some (azure_openai (config g))) /\
  (exists head identity,
     root g = JObj (head ++
       [("supported_providers",
         JObj [("openai", JBool (bool_decide (is_Some (openai_client g))));
               ("azure_openai", JBool (bool_decide (is_Some (azure_client g))));
               ("azure_identity_enabled", JBool identity)])])) /\
  (forall auth version endpoint deployment,
     azure_client g = Some (AsyncAzureOpenAI auth version endpoint deployment) ->
     exists a, azure_openai (config g) = Some a /\
       (auth = AzureAdTokenProvider <->
        AzureOpenAIConfig.use_azure_identity a = true /\ avail = true) /\
       (auth <> AzureAdTokenProvider ->
        auth = AzureApiKey (AzureOpenAIConfig.api_key a))).
Proof.
  intros Hinit.
  destruct (initialize_clients_sections _ _ _ Hinit) as [Ho Ha].
  assert (is_Some (openai_client g) <-> is_Some (openai (config g))) as Hio
    by now rewrite Ho, fmap_is_Some.
  assert (is_Some (azure_client g) <-> is_Some (azure_openai (config g))) as Hia
    by now rewrite Ha, fmap_is_Some.
  split; [exact Hio|]. split; [exact Hia|]. split.
  - unfold root.
    rewrite (bool_decide_ext _ _ Hio), (bool_decide_ext _ _ Hia).
    eexists [_; _; _; _], _. reflexivity.
  - intros auth version endpoint deployment. rewrite Ha.
    destruct (azure_openai (config g)) as [a|]; [|discriminate].
    cbn. intros [= <- _ _ _]. exists a. split; [reflexivity|].
    destruct (AzureOpenAIConfig.use_azure_identity a), avail; cbn; split;
      try (split; [intros _; now split | reflexivity]);
      try (split; [discriminate | intros [? ?]; discriminate]);
      try (intros Hn; now destruct Hn); reflexivity.
Qed.

Lemma registry_matches_config_witness :
  is_Some (openai_client Demo.openai_only) <-> is_Some (openai (config Demo.openai_only)).
Proof.
  assert (initialize_clients true Env.openai = Ok Demo.openai_only) as Hinit
    by (vm_compute; reflexivity).
  apply (proj1 (registry_matches_config true Env.openai Demo.openai_only Hinit)).
Defined.

(** ** The entry points *)

(** A passed start-up check names a provider that [load_config] will
    configure. *)
Lemma check_environment_true (env : gmap string string) :
  check_environment env = true ->
  PyStr.truthy_opt (env !! "OPENAI_API_KEY") = true \/
  (PyStr.truthy_opt (getenv env "AZURE_OPENAI_API_KEY") ||
   (bool_decide (is_Some (getenv env "AZURE_AD_TOKEN")) ||
    String.eqb (PyStr.lower (getenv_default env "USE_AZURE_IDENTITY" "false")) "true"))
  && PyStr.truthy_opt (getenv env "AZURE_ENDPOINT") = true.
Proof.
  unfold check_environment, getenv. cbv zeta.
  destruct (PyStr.truthy_opt (env !! "OPENAI_API_KEY")); [now left|].
  destruct (PyStr.truthy_opt (env !! "AZURE_ENDPOINT")); [|discriminate].
  destruct (PyStr.truthy_opt (env !! "AZURE_OPENAI_API_KEY")); [now right|].
  destruct (String.eqb (PyStr.lower (getenv_default env "USE_AZURE_IDENTITY" "false"))
              "true"); [intros _; right; now rewrite orb_true_r|].
  destruct (env !! "AZURE_AD_TOKEN") as [tok|]; [now right | discriminate].
Qed.

(** With a client registered, every model name is routed. *)
Lemma registered_routes_all (g : globals) :
  is_Some (openai_client g) \/ is_Some (azure_client g) ->
  forall m, exists c, get_client g m = Ok c.
Proof.
  intros Hreg m. unfold get_client, and_client.
  destruct (openai_client g), (azure_client g),
    (PyStr.startswith "gpt-" m),
    (PyStr.startswith "azure-" m || PyStr.contains "gpt" m); eauto;
    destruct Hreg as [[? ?] | [? ?]]; discriminate.
Qed.

(** X14. An environment that passes [check_environment] of
    [start_proxy.py] and on which [initialize_clients] returns has at
    least one client registered. *)
Theorem checked_environment_has_provider `{External}
    (avail : bool) (env : gmap string string) (g : globals) :
  check_environment env = true ->
  initialize_clients avail env = Ok g ->
  is_Some (openai_client g) \/ is_Some (azure_client g).
Proof.
  intros Hcheck Hinit.
  destruct (initialize_clients_registry _ _ _ Hinit) as (Ho & Ha & _).
  destruct (check_environment_true env Hcheck) as [Hopenai | Hazure].
  - left. now apply Ho.
  - right. now apply Ha.
Qed.

Lemma checked_environment_has_provider_witness :
  is_Some (openai_client Demo.openai_only) \/ is_Some (azure_client Demo.openai_only).
Proof.
  assert (initialize_clients true Env.openai = Ok Demo.openai_only) as Hinit
    by (vm_compute; reflexivity).
  assert (check_environment Env.openai = true) as Hcheck by (vm_compute; reflexivity).
  apply (checked_environment_has_provider true Env.openai Demo.openai_only Hcheck Hinit).
Defined.

(** X15. When [main] of [start_proxy.py] reaches [uvicorn.run], the
    globals are those [initialize_clients] set, the server listens on the
    host and port of the configuration, at least one client is registered,
    and therefore [get_client] routes every model name: the no-provider
    error cannot occur in a server started this way. *)
Theorem start_proxy_serving `{External}
    (imports_ok avail : bool) (env : gmap string string)
    (g : globals) (h : string) (p : Z) :
  start_proxy_main imports_ok avail env = Serving g h p ->
  initialize_clients avail env = Ok g /\
  h = host (config g) /\ p = port (config g) /\
  (is_Some (openai_client g) \/ is_Some (azure_client g)) /\
  (forall m, exists c, get_client g m = Ok c).
Proof.
  unfold start_proxy_main, mbind, result_bind, int_of_str.
  destruct (check_environment env) eqn:Hcheck; [|discriminate]. cbn [negb].
  destruct imports_ok; [|discriminate]. cbn [negb].
  destruct (initialize_clients avail env) as [g'|] eqn:Hinit; [|discriminate].
  destruct (initialize_clients_registry _ _ _ Hinit) as (Ho & Ha & Hhost & Hport).
  rewrite Hport. intros [= <- <- <-].
  assert (is_Some (openai_client g') \/ is_Some (azure_client g')) as Hreg.
  { destruct (check_environment_true env Hcheck) as [Hopenai | Hazure];
      [left; now apply Ho | right; now apply Ha]. }
  repeat split; try reflexivity; try (now symmetry); try exact Hreg.
  now apply registered_routes_all.
Qed.

Lemma start_proxy_serving_witness :
  initialize_clients true Env.openai = Ok Demo.openai_only /\
  "0.0.0.0" = host (config Demo.openai_only) /\
  4000 = port (config Demo.openai_only) /\
  (is_Some (openai_client Demo.openai_only) \/ is_Some (azure_client Demo.openai_only)) /\
  (forall m, exists c, get_client Demo.openai_only m = Ok c).
Proof.
  assert (start_proxy_main true true Env.openai = Serving Demo.openai_only "0.0.0.0" 4000)
    as Hmain by (vm_compute; reflexivity).
  apply (start_proxy_serving true true Env.openai Demo.openai_only "0.0.0.0" 4000 Hmain).
Defined.

(** X16. When the [__main__] block of [proxy_server.py] reaches
    [uvicorn.run], at least one client is registered and every model name
    is routed; with no client it exits with code 1, and an exception of
    [initialize_clients] ends the process before any request is served. *)
Theorem proxy_server_main_outcomes `{External}
    (avail : bool) (env : gmap string string) :
  (forall g h p, proxy_server_main avail env = Serving g h p ->
     initialize_clients avail env = Ok g /\
     h = host (config g) /\ p = port (config g) /\
     (is_Some (openai_client g) \/ is_Some (azure_client g)) /\
     (forall m, exists c, get_client g m = Ok c)) /\
  (forall g, initialize_clients avail env = Ok g ->
     openai_client g = None -> azure_client g = None ->
     proxy_server_main avail env = Exit 1) /\
  (forall e, initialize_clients avail env = Raise e ->
     proxy_server_main avail env = Crashed e).
Proof.
  unfold proxy_server_main. split; [|split].
  - intros g h p.
    destruct (initialize_clients avail env) as [g'|]; [|discriminate].
    destruct (openai_client g') as [oc|] eqn:Ho, (azure_client g') as [ac|] eqn:Ha;
      cbn; try discriminate; intros [= <- <- <-];
      (assert (is_Some (openai_client g') \/ is_Some (azure_client g')) as Hreg
         by (rewrite Ho, Ha; eauto));
      (split; [reflexivity|]; split; [reflexivity|]; split; [reflexivity|];
       split; [exact Hreg | now apply registered_routes_all]).
  - intros g -> -> ->. reflexivity.
  - intros e ->. reflexivity.
Qed.

Lemma proxy_server_main_outcomes_witness :
  proxy_server_main true (∅ : gmap string string) = Exit 1.
Proof.
  assert (initialize_clients true (∅ : gmap string string) = Ok Demo.no_providers)
    as Hinit by (vm_compute; reflexivity).
  apply (proj1 (proj2 (proxy_server_main_outcomes true ∅)) Demo.no_providers Hinit);
    reflexivity.
Defined.

(** X18. The converse fails on an empty [AZURE_AD_TOKEN]: when the only
    Azure credential in the environment is an [AZURE_AD_TOKEN] set to the
    empty string (no OpenAI key, no Azure key, [USE_AZURE_IDENTITY] not
    reading [true]), [start_proxy.py] exits with code 1, while the
    [__main__] block of [proxy_server.py], given the endpoint, the
    deployment, a valid port and the [azure.identity] import, serves with
    an Azure client that uses the token provider. *)
Theorem blank_ad_token_disagreement `{External}
    (imports_ok avail : bool) (env : gmap string string) :
  env !! "AZURE_AD_TOKEN" = Some "" ->
  ~ env_nonempty env "OPENAI_API_KEY" ->
  ~ env_nonempty env "AZURE_OPENAI_API_KEY" ->
  PyStr.lower (default "false" (env !! "USE_AZURE_IDENTITY")) <> "true" ->
  env_nonempty env "AZURE_ENDPOINT" ->
  is_Some (env !! "AZURE_DEPLOYMENT") ->
  is_Some (py_int (default "4000" (env !! "PORT"))) ->
  start_proxy_main imports_ok avail env = Exit 1 /\
  exists g h p version endpoint deployment,
    proxy_server_main true env = Serving g h p /\
    azure_client g
      = Some (AsyncAzureOpenAI AzureAdTokenProvider version endpoint deployment).
Proof.
  intros Htok Hno_openai Hno_key Hno_flag Hep [dep Hdep] [p Hp].
  apply truthy_opt_nonempty in Hep.
  assert (PyStr.truthy_opt (env !! "OPENAI_API_KEY") = false) as Hopenai.
  { destruct (PyStr.truthy_opt (env !! "OPENAI_API_KEY")) eqn:E; [|reflexivity].
    apply truthy_opt_nonempty in E. contradiction. }
  assert (PyStr.truthy_opt (env !! "AZURE_OPENAI_API_KEY") = false) as Hkey.
  { destruct (PyStr.truthy_opt (env !! "AZURE_OPENAI_API_KEY")) eqn:E; [|reflexivity].
    apply truthy_opt_nonempty in E. contradiction. }
  assert (String.eqb (PyStr.lower (getenv_default env "USE_AZURE_IDENTITY" "false"))
            "true" = false) as Hflag.
  { apply String.eqb_neq. exact Hno_flag. }
  split.
  - unfold start_proxy_main, check_environment, getenv. cbv zeta.
    now rewrite Hopenai, Hep, Hkey, Hflag, Htok.
  - unfold proxy_server_main, initialize_clients, mbind, result_bind.
    rewrite load_config_unfold. cbv zeta. unfold getenv.
    rewrite Hopenai, Hep, Hkey, Hflag, Htok, Hdep.
    change (getenv_default env "PORT" "4000") with (default "4000" (env !! "PORT")).
    rewrite Hp.
    cbn. eexists _, _, _, _, _, _. split; reflexivity.
Qed.

Lemma blank_ad_token_disagreement_witness :
  start_proxy_main true true Env.azure_blank_token = Exit 1 /\
  exists g h p version endpoint deployment,
    proxy_server_main true Env.azure_blank_token = Serving g h p /\
    azure_client g
      = Some (AsyncAzureOpenAI AzureAdTokenProvider version endpoint deployment).
Proof.
  apply (blank_ad_token_disagreement true true Env.azure_blank_token).
  - reflexivity.
  - intros (v & Hv & _). discriminate.
  - intros (v & Hv & _). discriminate.
  - discriminate.
  - exists "https://example.openai.azure.com". split; [reflexivity | discriminate].
  - eexists. reflexivity.
  - eexists. reflexivity.
Defined.

(** ** The entry points and the empty registry *)






(** ** Error bodies *)

Section ErrorBodies.
Context `{External}.
Variable upstream : upstream_call -> result sdk_response.

(** Each handler is its [try] block under the shared [except] clauses. *)
Lemma chat_completion_try g request :
  chat_completion upstream g request
  = try_except (chat_try_block upstream g request) except_clauses.
Proof. reflexivity. Qed.

Lemma completion_try g request :
  completion upstream g request
  = try_except (completion_try_block upstream g request) except_clauses.
Proof. reflexivity. Qed.

(** What the caller gets when the [try] block of a handler raises [e]. *)
Lemma chat_raise_response g hdr request e log :
  authenticate_request g hdr = Ok true ->
  chat_try_block upstream g request [] = (Raise e, log) ->
  exists status detail,
    serve upstream g hdr (POST_chat_completions request)
      = (JSONResponse status (JObj [("detail", JStr detail)]), log) /\
    normalized_status e status /\ normalized_detail e detail.
Proof.
  intros Ha Hb.
  destruct (except_clauses_shape (A:=response) e log) as (s & d & Hx & Hs & Hd).
  exists s, d. split; [|now split].
  rewrite serve_authenticated by (reflexivity || assumption).
  cbn [endpoint]. rewrite chat_completion_try. unfold try_except.
  now rewrite Hb, Hx.
Qed.

Lemma completion_raise_response g hdr request e log :
  authenticate_request g hdr = Ok true ->
  completion_try_block upstream g request [] = (Raise e, log) ->
  exists status detail,
    serve upstream g hdr (POST_completions request)
      = (JSONResponse status (JObj [("detail", JStr detail)]), log) /\
    normalized_status e status /\ normalized_detail e detail.
Proof.
  intros Ha Hb.
  destruct (except_clauses_shape (A:=response) e log) as (s & d & Hx & Hs & Hd).
  exists s, d. split; [|now split].
  rewrite serve_authenticated by (reflexivity || assumption).
  cbn [endpoint]. rewrite completion_try. unfold try_except.
  now rewrite Hb, Hx.
Qed.

(** A failing upstream call is what the [try] block raises. *)
Lemma chat_try_block_upstream_raise g request c e :
  get_client g (chat_model request) = Ok c ->
  upstream (chat_call c request) = Raise e ->
  chat_try_block upstream g request [] = (Raise e, [chat_call c request]).
Proof.
  intros Hc Hu. unfold chat_try_block, mbind, handler_bind, lift, await.
  rewrite Hc. fold (chat_call c request). now rewrite Hu.
Qed.

(** The gate's refusals carry one of two fixed messages. *)
Lemma gate_refusal_response g hdr r :
  depends_on_auth r = true ->
  authenticate_request g hdr <> Ok true ->
  exists d,
    serve upstream g hdr r = (JSONResponse 401 (JObj [("detail", JStr d)]), []) /\
    (d = "Missing Authorization header" \/ d = "Invalid API key").
Proof.
  intros Hd Hn.
  assert (hdr <> Some ("Bearer " +:+ master_key (config g))) as Hne
    by (intros Heq; apply Hn; now apply authenticate_request_accepts).
  destruct (authenticate_request_rejects g hdr Hne) as [Hr | Hr];
    rewrite (serve_rejected _ _ _ _ _ Hd Hr); eexists; split; eauto.
Qed.

End ErrorBodies.

(** C9, as stated, fails: were the body free of the text of the
    underlying exception, two failures of one class and status code that
    differ only in their text would be answered alike; they are not. *)
Lemma error_detail_counterexample :
  ~ (forall (upstream1 upstream2 : upstream_call -> result sdk_response)
            (g : globals) (hdr : option string) (request : ChatCompletionRequest)
            (c : client) (cls : exc_class) (text1 text2 : string) (sc : option Z),
       authenticate_request g hdr = Ok true ->
       get_client g (chat_model request) = Ok c ->
       upstream1 (chat_call c request) = Raise (PyExc cls text1 sc) ->
       upstream2 (chat_call c request) = Raise (PyExc cls text2 sc) ->
       (serve upstream1 g hdr (POST_chat_completions request)).1
       = (serve upstream2 g hdr (POST_chat_completions request)).1).
Proof.
  intros Hclaim.
  specialize (Hclaim
    (Demo.always_raises (PyExc ClsValueError "db-internal:5432 refused connection" None))
    (Demo.always_raises (PyExc ClsValueError "timed out after 30 s" None))
    Demo.openai_only Demo.good_header (Demo.chat_request [Demo.hi] None)
    Demo.the_openai_client ClsValueError
    "db-internal:5432 refused connection" "timed out after 30 s" None
    eq_refl eq_refl eq_refl eq_refl).
  vm_compute in Hclaim.
  discriminate Hclaim.
Qed.

(** C9, amended.  Every error response of the proxy is a JSON object with
    the single field [detail].  The detail is a fixed message for the
    refusals of the auth gate ([Missing Authorization header],
    [Invalid API key]) and for upstream rate-limit and authentication
    failures ([Upstream rate limit exceeded],
    [Upstream authentication failed]); for every other failure raised in
    the [try] block of a handler, the 500 case included, it is the text of
    the exception, [str(e)].  The frame that reports a failure inside a
    stream carries a JSON object with the single field [error] holding
    [str(e)]. *)
Theorem error_detail_is_exception_text `{External}
    (upstream : upstream_call -> result sdk_response)
    (g : globals) (hdr : option string) :
  (forall r, depends_on_auth r = true ->
     authenticate_request g hdr <> Ok true ->
     exists d,
       serve upstream g hdr r = (JSONResponse 401 (JObj [("detail", JStr d)]), []) /\
       (d = "Missing Authorization header" \/ d = "Invalid API key")) /\
  (forall request e log,
     authenticate_request g hdr = Ok true ->
     chat_try_block upstream g request [] = (Raise e, log) ->
     exists status detail,
       (serve upstream g hdr (POST_chat_completions request)).1
         = JSONResponse status (JObj [("detail", JStr detail)]) /\
       normalized_detail e detail) /\
  (forall request e log,
     authenticate_request g hdr = Ok true ->
     completion_try_block upstream g request [] = (Raise e, log) ->
     exists status detail,
       (serve upstream g hdr (POST_completions request)).1
         = JSONResponse status (JObj [("detail", JStr detail)]) /\
       normalized_detail e detail) /\
  (forall cs e,
     generate (AsyncStream (failing_stream cs e))
     = map chunk_frame cs
       ++ [data_frame (json_dumps (JObj [("error", JStr (str e))]))]).
Proof.
  split; [|split; [|split]].
  - intros r. apply gate_refusal_response.
  - intros request e log Ha Hb.
    destruct (chat_raise_response upstream g hdr request e log Ha Hb)
      as (s & d & -> & _ & Hd). now exists s, d.
  - intros request e log Ha Hb.
    destruct (completion_raise_response upstream g hdr request e log Ha Hb)
      as (s & d & -> & _ & Hd). now exists s, d.
  - intros cs e. apply generate_failing.
Qed.

Lemma error_detail_is_exception_text_witness :
  (exists status detail,
     (serve (Demo.always_raises (PyExc ClsValueError "oops" None))
        Demo.openai_only Demo.good_header
        (POST_chat_completions (Demo.chat_request [Demo.hi] None))).1
       = JSONResponse status (JObj [("detail", JStr detail)]) /\
     normalized_detail (PyExc ClsValueError "oops" None) detail) /\
  (exists d,
     serve (Demo.always_raises (PyExc ClsValueError "oops" None))
        Demo.openai_only None GET_models
       = (JSONResponse 401 (JObj [("detail", JStr d)]), []) /\
     (d = "Missing Authorization header" \/ d = "Invalid API key")).
Proof.
  split.
  - apply (proj1 (proj2 (error_detail_is_exception_text
                    (Demo.always_raises (PyExc ClsValueError "oops" None))
                    Demo.openai_only Demo.good_header))
             (Demo.chat_request [Demo.hi] None) (PyExc ClsValueError "oops" None)
             [chat_call Demo.the_openai_client (Demo.chat_request [Demo.hi] None)]);
      reflexivity.
  - apply (proj1 (error_detail_is_exception_text
                    (Demo.always_raises (PyExc ClsValueError "oops" None))
                    Demo.openai_only None) GET_models);
      [reflexivity | discriminate].
Defined.

(** X17. Whenever [start_proxy.py] reaches [uvicorn.run], having first
    added the variables of its [.env] file (if there is one) to the
    process environment without replacing variables already set, the
    [__main__] block of [proxy_server.py] started with that resulting
    environment reaches [uvicorn.run] too, with the same globals, host and
    port.  ([proxy_server.py] reads no [.env] file itself: the statement
    is about the environment after the load, not the one before.) *)
Theorem start_proxy_is_stricter `{External}
    (imports_ok avail : bool) (dotenv : option (gmap string string))
    (env : gmap string string) (g : globals) (h : string) (p : Z) :
  start_proxy imports_ok avail dotenv env = Serving g h p ->
  proxy_server_main avail
    (match dotenv with
     | Some d => load_dotenv d env
     | None => env
     end) = Serving g h p.
Proof.
  unfold start_proxy.
  generalize (match dotenv with
              | Some d => load_dotenv d env
              | None => env
              end).
  intros env'.
  unfold start_proxy_main, proxy_server_main, mbind, result_bind, int_of_str.
  destruct (check_environment env') eqn:Hcheck; [|discriminate]. cbn [negb].
  destruct imports_ok; [|discriminate]. cbn [negb].
  destruct (initialize_clients avail env') as [g'|] eqn:Hinit; [|discriminate].
  destruct (initialize_clients_registry _ _ _ Hinit) as (Ho & Ha & Hhost & Hport).
  rewrite Hport. intros [= <- <- <-]. rewrite Hhost.
  destruct (check_environment_true env' Hcheck) as [Hopenai | Hazure].
  - apply Ho in Hopenai. rewrite (bool_decide_eq_true_2 _ Hopenai). reflexivity.
  - apply Ha in Hazure. rewrite (bool_decide_eq_true_2 _ Hazure).
    now rewrite andb_false_r.
Qed.

Lemma start_proxy_is_stricter_witness :
  proxy_server_main true (load_dotenv Env.openai ∅)
    = Serving Demo.openai_only "0.0.0.0" 4000.
Proof.
  assert (start_proxy true true (Some Env.openai) ∅
          = Serving Demo.openai_only "0.0.0.0" 4000) as Hmain
    by (vm_compute; reflexivity).
  apply (start_proxy_is_stricter true true (Some Env.openai) ∅
           Demo.openai_only "0.0.0.0" 4000 Hmain).
Defined.
